(** * Announcements and authentication routers

    A shallow embedding of [src/backend/routers/announcements.py] and
    [src/backend/routers/auth.py].

    - A MongoDB collection is a list of documents in natural (insertion)
      order; [find()] returns that list.
    - An announcement document is its [_id] together with a Python dict of
      the remaining keys ([gmap string (option string)], where [None] is
      Python's [None]).
    - A handler is a function of the store that returns a [Result] and the
      new store; [raise HTTPException(...)] is the [Raise] constructor.
    - What the routers import from outside the two files
      ([bson.ObjectId], [datetime.fromisoformat], [database.verify_password])
      is collected in the class [Externals]; every theorem holds for every
      implementation of it.
    - Strings are Rocq strings (bytes); Python compares strings by code
      point, which is the same order on ASCII text such as ISO dates. *)

From Stdlib Require Import Ascii.
From Stdlib Require String.
From stdpp Require Import base option list gmap strings fin_maps.

(** ** Python strings *)

(** [a < b], [a <= b] on [str]: lexicographic. [a > b] is [py_lt b a] and
    [a >= b] is [py_le b a]. *)
Definition py_lt (a b : string) : bool := String.ltb a b.
Definition py_le (a b : string) : bool := String.leb a b.
Definition py_gt (a b : string) : bool := py_lt b a.
Definition py_ge (a b : string) : bool := py_le b a.

(** Truth value of an [Optional[str]]: [None] and [""] are false. *)
Definition truthy (o : option string) : bool :=
  match o with
  | Some s => negb (String.eqb s "")
  | None => false
  end.

(** [x and p(x)] for an [Optional[str]] [x]: [p] is only evaluated on a
    non-empty string. *)
Definition truthy_and (o : option string) (p : string -> bool) : bool :=
  match o with
  | Some s => if String.eqb s "" then false else p s
  | None => false
  end.

(** [s.replace(old, new)]: every non-overlapping occurrence of [old],
    scanning from the left. [skip] counts the characters of a match that
    are still to be dropped. *)
Fixpoint replace_from (old new : string) (skip : nat) (s : string) : string :=
  match s with
  | EmptyString => EmptyString
  | String c s' =>
      match skip with
      | S k => replace_from old new k s'
      | O =>
          if String.prefix old s
          then new +:+ replace_from old new (String.length old - 1) s'
          else String c (replace_from old new 0 s')
      end
  end.

(** With an empty [old] Python puts [new] before every character and at
    the end. *)
Fixpoint intersperse_all (new s : string) : string :=
  match s with
  | EmptyString => new
  | String c s' => new +:+ String c (intersperse_all new s')
  end.

Definition replace (s old new : string) : string :=
  match old with
  | EmptyString => intersperse_all new s
  | String _ _ => replace_from old new 0 s
  end.

(** [old] occurs in [s] as a substring. *)
Definition occurs (old s : string) : Prop :=
  exists a b, s = a +:+ old +:+ b.

(** ** HTTP results *)

Record HTTPException := mkHTTPException { status_code : nat; detail : string }.

Definition HTTP_400_BAD_REQUEST := 400.
Definition HTTP_401_UNAUTHORIZED := 401.
Definition HTTP_404_NOT_FOUND := 404.
Definition HTTP_500_INTERNAL_SERVER_ERROR := 500.

Inductive Result (A : Type) : Type :=
| Return (a : A)
| Raise (e : HTTPException).
Arguments Return {A} a.
Arguments Raise {A} e.

Definition bind {A B} (r : Result A) (k : A -> Result B) : Result B :=
  match r with
  | Return a => k a
  | Raise e => Raise e
  end.

Notation "x <- r ;; k" := (bind r (fun x => k))
  (at level 100, r at next level, right associativity).
Notation "r ;;; k" := (bind r (fun _ => k))
  (at level 100, right associativity).

(** [if cond: raise HTTPException(status_code, detail)] *)
Definition raise_if (cond : bool) (code : nat) (msg : string) : Result unit :=
  if cond then Raise (mkHTTPException code msg) else Return tt.

Definition is_ok {A} (r : Result A) : bool :=
  match r with Return _ => true | Raise _ => false end.

Definition fails_with {A} (r : Result A) (code : nat) : Prop :=
  exists msg, r = Raise (mkHTTPException code msg).

(** ** Request bodies (the pydantic models) *)

Module AnnouncementCreate.
Record t := mk {
  message : string;
  start_date : option string;  (* ISO date string (YYYY-MM-DD) *)
  end_date : string            (* ISO date string (YYYY-MM-DD), required *)
}.
End AnnouncementCreate.

Module AnnouncementUpdate.
Record t := mk {
  message : option string;
  start_date : option string;
  end_date : option string
}.
End AnnouncementUpdate.

(** ** Python dicts with string keys *)

(** [d.get(k)] on a document whose values are strings or [None]: a missing
    key and a [None] value both give [None]. *)
Definition get (d : gmap string (option string)) (k : string) : option string :=
  mjoin (d !! k).

(** ** What the routers import *)

Class Externals := {
  (** values of [bson.ObjectId] *)
  ObjectId : Type;
  ObjectId_eq_dec :: EqDecision ObjectId;
  (** [ObjectId(s)] for a [str]; [None] when it raises *)
  ObjectId_of_str : string -> option ObjectId;
  (** [str(oid)] *)
  str : ObjectId -> string;
  (** [datetime.fromisoformat(s)] returns ([true]) or raises [ValueError] *)
  fromisoformat : string -> bool;
  (** [verify_password(hashed_password, plain_password)] of [database.py] *)
  verify_password : string -> string -> bool
}.

(** A teacher document. The routers index [username], [display_name] and
    [role] directly and read [password] with a default. *)
Module Teacher.
Record t := mk {
  _id : string;
  username : string;
  display_name : string;
  role : string;
  password : option string
}.
End Teacher.

(** The announcement of the specification's example. *)
Definition exam_week : gmap string (option string) :=
  {[ "message" := Some "Exam week";
     "start_date" := Some "2025-01-01";
     "end_date" := Some "2025-01-10" ]}.

Section Routers.
Context {E : Externals}.

(** An announcement document: its [_id] and its other keys. *)
Record Document := mkDocument {
  doc_id : ObjectId;
  doc_fields : gmap string (option string)
}.

Record Store := mkStore {
  announcements_collection : list Document;
  teachers_collection : list Teacher.t
}.

Definition set_announcements (db : Store) (coll : list Document) : Store :=
  {| announcements_collection := coll;
     teachers_collection := teachers_collection db |}.

(** *** Collection operations *)

(** [teachers_collection.find_one({"_id": username})] *)
Definition find_one (coll : list Teacher.t) (_id : string) : option Teacher.t :=
  List.find (fun teacher => String.eqb (Teacher._id teacher) _id) coll.

Definition has_id (coll : list Document) (oid : ObjectId) : bool :=
  existsb (fun d => bool_decide (doc_id d = oid)) coll.

(** [insert_one(data)] with the identifier the driver generated for it;
    [None] is the duplicate-key error of the unique index on [_id]. *)
Definition insert_one (coll : list Document) (inserted_id : ObjectId)
    (data : gmap string (option string)) : option (list Document) :=
  if has_id coll inserted_id then None
  else Some (coll ++ [mkDocument inserted_id data]).

(** [update_one({"_id": oid}, {"$set": update_data})]: the first match
    gets the keys of [update_data]; returns [matched_count]. *)
Fixpoint update_one (coll : list Document) (oid : ObjectId)
    (update_data : gmap string (option string)) : nat * list Document :=
  match coll with
  | [] => (0, [])
  | d :: rest =>
      if bool_decide (doc_id d = oid)
      then (1, mkDocument (doc_id d) (update_data ∪ doc_fields d) :: rest)
      else let '(n, rest') := update_one rest oid update_data in (n, d :: rest')
  end.

(** [delete_one({"_id": oid})]: removes the first match; returns
    [deleted_count]. *)
Fixpoint delete_one (coll : list Document) (oid : ObjectId) : nat * list Document :=
  match coll with
  | [] => (0, [])
  | d :: rest =>
      if bool_decide (doc_id d = oid) then (1, rest)
      else let '(n, rest') := delete_one rest oid in (n, d :: rest')
  end.

(** [announcement["_id"] = str(announcement["_id"])] *)
Definition with_str_id (announcement : Document) : gmap string (option string) :=
  <["_id" := Some (str (doc_id announcement))]> (doc_fields announcement).

(** *** auth.py *)

Definition get_current_user (db : Store) (authorization : option string)
    : Result (gmap string string) :=
  raise_if (negb (truthy authorization))
    HTTP_401_UNAUTHORIZED "Not authenticated" ;;;
  let username := replace (default "" authorization) "Bearer " "" in
  let teacher := find_one (teachers_collection db) username in
  match teacher with
  | None =>
      Raise (mkHTTPException HTTP_401_UNAUTHORIZED
               "Invalid authentication credentials")
  | Some teacher =>
      Return {[ "username" := Teacher.username teacher;
                "display_name" := Teacher.display_name teacher;
                "role" := Teacher.role teacher ]}
  end.

Definition login (db : Store) (username password : string)
    : Result (gmap string string) :=
  let teacher := find_one (teachers_collection db) username in
  match teacher with
  | None =>
      Raise (mkHTTPException HTTP_401_UNAUTHORIZED "Invalid username or password")
  | Some teacher =>
      if negb (verify_password (default "" (Teacher.password teacher)) password)
      then Raise (mkHTTPException HTTP_401_UNAUTHORIZED
                    "Invalid username or password")
      else Return {[ "username" := Teacher.username teacher;
                     "display_name" := Teacher.display_name teacher;
                     "role" := Teacher.role teacher ]}
  end.

Definition check_session (db : Store) (username : string)
    : Result (gmap string string) :=
  let teacher := find_one (teachers_collection db) username in
  match teacher with
  | None => Raise (mkHTTPException HTTP_404_NOT_FOUND "Teacher not found")
  | Some teacher =>
      Return {[ "username" := Teacher.username teacher;
                "display_name" := Teacher.display_name teacher;
                "role" := Teacher.role teacher ]}
  end.

(** *** announcements.py *)

(** The body of the loop of [get_active_announcements]. *)
Definition is_active (today : string) (announcement : Document) : bool :=
  let start_date := get (doc_fields announcement) "start_date" in
  let end_date := get (doc_fields announcement) "end_date" in
  let is_active := true in
  let is_active :=
    if truthy_and start_date (fun start_date => py_gt start_date today)
    then false else is_active in
  let is_active :=
    if truthy_and end_date (fun end_date => py_lt end_date today)
    then false else is_active in
  is_active.

Fixpoint active_announcements (today : string) (announcements : list Document)
    : list (gmap string (option string)) :=
  match announcements with
  | [] => []
  | announcement :: rest =>
      if is_active today announcement
      then with_str_id announcement :: active_announcements today rest
      else active_announcements today rest
  end.

(** [today] is [date.today().isoformat()]. *)
Definition get_active_announcements (db : Store) (today : string)
    : Result (list (gmap string (option string))) :=
  let announcements := announcements_collection db in
  Return (active_announcements today announcements).

Definition get_all_announcements (db : Store) (current_user : gmap string string)
    : Result (list (gmap string (option string))) :=
  let announcements := announcements_collection db in
  Return (map with_str_id announcements).

(** [inserted_id] is the identifier the driver generates in
    [insert_one]. The result is the ["announcement"] entry of the
    response. *)
Definition create_announcement (db : Store) (inserted_id : ObjectId)
    (announcement : AnnouncementCreate.t) (current_user : gmap string string)
    : Result (gmap string (option string)) * Store :=
  let start_date := AnnouncementCreate.start_date announcement in
  let end_date := AnnouncementCreate.end_date announcement in
  let validated :=
    raise_if (truthy_and start_date (fun s => negb (fromisoformat s)))
      HTTP_400_BAD_REQUEST "Invalid start_date format. Use YYYY-MM-DD" ;;;
    raise_if (negb (fromisoformat end_date))
      HTTP_400_BAD_REQUEST "Invalid end_date format. Use YYYY-MM-DD" ;;;
    raise_if (truthy_and start_date (fun s =>
                truthy (Some end_date) && py_gt s end_date))
      HTTP_400_BAD_REQUEST "end_date must be after start_date" in
  match validated with
  | Raise e => (Raise e, db)
  | Return _ =>
      let announcement_data : gmap string (option string) :=
        {[ "message" := Some (AnnouncementCreate.message announcement);
           "start_date" := start_date;
           "end_date" := Some end_date ]} in
      match insert_one (announcements_collection db) inserted_id
              announcement_data with
      | None =>
          (Raise (mkHTTPException HTTP_500_INTERNAL_SERVER_ERROR
                    "Failed to create announcement"), db)
      | Some coll =>
          (Return (<["_id" := Some (str inserted_id)]> announcement_data),
           set_announcements db coll)
      end
  end.

(** The [update_data] dict of [update_announcement]. *)
Definition build_update_data (announcement : AnnouncementUpdate.t)
    : Result (gmap string (option string)) :=
  let update_data : gmap string (option string) := ∅ in
  let update_data :=
    match AnnouncementUpdate.message announcement with
    | Some message => <["message" := Some message]> update_data
    | None => update_data
    end in
  update_data <-
    match AnnouncementUpdate.start_date announcement with
    | Some start_date =>
        if fromisoformat start_date
        then Return (<["start_date" := Some start_date]> update_data)
        else Raise (mkHTTPException HTTP_400_BAD_REQUEST
                      "Invalid start_date format. Use YYYY-MM-DD")
    | None => Return update_data
    end ;;
  update_data <-
    match AnnouncementUpdate.end_date announcement with
    | Some end_date =>
        if fromisoformat end_date
        then Return (<["end_date" := Some end_date]> update_data)
        else Raise (mkHTTPException HTTP_400_BAD_REQUEST
                      "Invalid end_date format. Use YYYY-MM-DD")
    | None => Return update_data
    end ;;
  raise_if (bool_decide (update_data = ∅))
    HTTP_400_BAD_REQUEST "No fields to update" ;;;
  Return update_data.

(** The result of [update_announcement] and of [delete_announcement] is
    the ["message"] entry of the response. *)
Definition update_announcement (db : Store) (announcement_id : string)
    (announcement : AnnouncementUpdate.t) (current_user : gmap string string)
    : Result string * Store :=
  match ObjectId_of_str announcement_id with
  | None =>
      (Raise (mkHTTPException HTTP_400_BAD_REQUEST "Invalid announcement ID"), db)
  | Some obj_id =>
      match build_update_data announcement with
      | Raise e => (Raise e, db)
      | Return update_data =>
          let '(matched_count, coll) :=
            update_one (announcements_collection db) obj_id update_data in
          if Nat.eqb matched_count 0
          then (Raise (mkHTTPException HTTP_404_NOT_FOUND
                         "Announcement not found"),
                set_announcements db coll)
          else (Return "Announcement updated successfully",
                set_announcements db coll)
      end
  end.

Definition delete_announcement (db : Store) (announcement_id : string)
    (current_user : gmap string string) : Result string * Store :=
  match ObjectId_of_str announcement_id with
  | None =>
      (Raise (mkHTTPException HTTP_400_BAD_REQUEST "Invalid announcement ID"), db)
  | Some obj_id =>
      let '(deleted_count, coll) :=
        delete_one (announcements_collection db) obj_id in
      if Nat.eqb deleted_count 0
      then (Raise (mkHTTPException HTTP_404_NOT_FOUND
                     "Announcement not found"),
            set_announcements db coll)
      else (Return "Announcement deleted successfully",
            set_announcements db coll)
  end.

End Routers.

Arguments Document : clear implicits.
Arguments Store : clear implicits.

(** * Contracts

    The predicates the properties below are stated with. *)

Section Contracts.
Context {E : Externals}.

(** *** The active window *)

(** The contract of the filter in the specification's words. *)
Definition absent_or (o : option string) (p : string → bool) : bool :=
  match o with
  | None => true
  | Some s => p s
  end.

Definition in_window (today : string) (d : Document E) : bool :=
  absent_or (get (doc_fields d) "start_date")
    (fun start_date => py_le start_date today)
  && absent_or (get (doc_fields d) "end_date")
    (fun end_date => py_ge end_date today).

(** Every stored end date is a date string, not the empty string. *)
Definition end_dates_nonempty (db : Store E) : Prop :=
  Forall (fun d => get (doc_fields d) "end_date" ≠ Some "")
    (announcements_collection db).

(** *** Authentication *)

(** The fields a handler puts in its response for a teacher. *)
Definition identity (teacher : Teacher.t) : gmap string string :=
  {[ "username" := Teacher.username teacher;
     "display_name" := Teacher.display_name teacher;
     "role" := Teacher.role teacher ]}.

Definition invalid_login : HTTPException :=
  mkHTTPException HTTP_401_UNAUTHORIZED "Invalid username or password".

Definition public_keys : gset string := {[ "username"; "display_name"; "role" ]}.

(** What a teacher document holds besides the password hash. *)
Definition public_part (teacher : Teacher.t) : string * string * string * string :=
  (Teacher._id teacher, Teacher.username teacher,
   Teacher.display_name teacher, Teacher.role teacher).

(** *** The announcements collection *)

(** Identifiers are unique in a collection (the index on [_id]). *)
Definition unique_ids (db : Store E) : Prop :=
  NoDup (doc_id <$> announcements_collection db).

(** *** Update requests *)

(** The supplied fields of an update request, as the [$set] document. *)
Definition supplied (req : AnnouncementUpdate.t) : gmap string (option string) :=
  let with_field k (v : option string) (m : gmap string (option string)) :=
    match v with Some x => <[k := Some x]> m | None => m end in
  with_field "end_date" (AnnouncementUpdate.end_date req)
    (with_field "start_date" (AnnouncementUpdate.start_date req)
       (with_field "message" (AnnouncementUpdate.message req) ∅)).

Definition no_field (req : AnnouncementUpdate.t) : Prop :=
  AnnouncementUpdate.message req = None
  ∧ AnnouncementUpdate.start_date req = None
  ∧ AnnouncementUpdate.end_date req = None.

Definition bad_date (req : AnnouncementUpdate.t) : Prop :=
  (∃ s, AnnouncementUpdate.start_date req = Some s ∧ fromisoformat s = false)
  ∨ (∃ e, AnnouncementUpdate.end_date req = Some e ∧ fromisoformat e = false).

Definition payload_ok (req : AnnouncementUpdate.t) : Prop :=
  ¬ bad_date req ∧ ¬ no_field req.

(** *** Create requests *)

(** The document [create_announcement] inserts. *)
Definition announcement_data (req : AnnouncementCreate.t)
    : gmap string (option string) :=
  {[ "message" := Some (AnnouncementCreate.message req);
     "start_date" := AnnouncementCreate.start_date req;
     "end_date" := Some (AnnouncementCreate.end_date req) ]}.

(** The requests the validation of [create_announcement] turns down: a
    non-empty [start_date] or the [end_date] is rejected by the ISO
    parser, or both are non-empty and [start_date > end_date]. *)
Definition create_invalid (req : AnnouncementCreate.t) : Prop :=
  (∃ s, AnnouncementCreate.start_date req = Some s ∧ s ≠ ""
        ∧ fromisoformat s = false)
  ∨ fromisoformat (AnnouncementCreate.end_date req) = false
  ∨ (∃ s, AnnouncementCreate.start_date req = Some s ∧ s ≠ ""
          ∧ AnnouncementCreate.end_date req ≠ ""
          ∧ py_gt s (AnnouncementCreate.end_date req) = true).



End Contracts.

(** ** A stand-in for the imported libraries

    Used to run the handlers on concrete requests. [fromisoformat] accepts
    the date-only form [YYYY-MM-DD] of a real calendar date, an [ObjectId]
    is kept as its 24 lower-case hexadecimal digits, and a stored hash is
    the password behind a fixed tag. *)
Module Sample.

Definition is_digit (c : ascii) : bool :=
  let n := nat_of_ascii c in (48 <=? n) && (n <=? 57).

Definition digit (c : ascii) : nat := nat_of_ascii c - 48.

Definition is_leap (y : nat) : bool :=
  ((y mod 4 =? 0) && negb (y mod 100 =? 0)) || (y mod 400 =? 0).

Definition days_in_month (y m : nat) : nat :=
  match m with
  | 2 => if is_leap y then 29 else 28
  | 4 | 6 | 9 | 11 => 30
  | _ => 31
  end.

Definition iso_date (s : string) : bool :=
  match String.list_ascii_of_string s with
  | [y1; y2; y3; y4; d1; m1; m2; d2; n1; n2] =>
      forallb is_digit [y1; y2; y3; y4; m1; m2; n1; n2]
      && bool_decide (d1 = "-"%char) && bool_decide (d2 = "-"%char)
      && (let y := 1000 * digit y1 + 100 * digit y2 + 10 * digit y3 + digit y4 in
          let m := 10 * digit m1 + digit m2 in
          let d := 10 * digit n1 + digit n2 in
          (1 <=? y) && (1 <=? m) && (m <=? 12)
          && (1 <=? d) && (d <=? days_in_month y m))
  | _ => false
  end.

Definition is_hex (c : ascii) : bool :=
  let n := nat_of_ascii c in
  ((48 <=? n) && (n <=? 57)) || ((97 <=? n) && (n <=? 102))
  || ((65 <=? n) && (n <=? 70)).

Definition lower (c : ascii) : ascii :=
  let n := nat_of_ascii c in
  if (65 <=? n) && (n <=? 90) then ascii_of_nat (n + 32) else c.

Definition hex24 (s : string) : option string :=
  let cs := String.list_ascii_of_string s in
  if (length cs =? 24) && forallb is_hex cs
  then Some (String.string_of_list_ascii (map lower cs))
  else None.

Definition externals : Externals := {|
  ObjectId := string;
  ObjectId_of_str := hex24;
  str := fun oid => oid;
  fromisoformat := iso_date;
  verify_password := fun hashed plain => String.eqb hashed ("argon2$" +:+ plain)
|}.

Definition oid1 : string := "65a000000000000000000001".
Definition oid2 : string := "65a000000000000000000002".

Definition alice : Teacher.t :=
  Teacher.mk "alice" "alice" "Alice A." "teacher" (Some "argon2$wonderland").

Definition db0 : Store externals :=
  @mkStore externals [] [alice].

Definition db1 : Store externals :=
  @mkStore externals [@mkDocument externals oid1 exam_week] [alice].

Definition update_end_date (end_date : string) : AnnouncementUpdate.t :=
  AnnouncementUpdate.mk None None (Some end_date).

Definition empty_update : AnnouncementUpdate.t :=
  AnnouncementUpdate.mk None None None.

Definition exam_week_request : AnnouncementCreate.t :=
  AnnouncementCreate.mk "Exam week" (Some "2025-01-01") "2025-01-10".

(** A teacher whose username is the empty string. *)
Definition nobody : Teacher.t :=
  Teacher.mk "" "" "No Name" "teacher" (Some "argon2$nothing").

Definition db2 : Store externals :=
  @mkStore externals [] [alice; nobody].

(** The year, month and day written in a [YYYY-MM-DD] string. *)
Definition ymd (s : string) : nat * nat * nat :=
  match String.list_ascii_of_string s with
  | [y1; y2; y3; y4; _; m1; m2; _; n1; n2] =>
      (1000 * digit y1 + 100 * digit y2 + 10 * digit y3 + digit y4,
       10 * digit m1 + digit m2,
       10 * digit n1 + digit n2)
  | _ => (0, 0, 0)
  end.

(** Calendar order on (year, month, day). *)
Definition date_le (a b : nat * nat * nat) : bool :=
  let '(y, m, d) := a in
  let '(y', m', d') := b in
  (y <? y') || ((y =? y') && ((m <? m') || ((m =? m') && (d <=? d')))).

End Sample.


(** * Properties *)

(** ** String order *)

Lemma py_gt_not_le (a b : string) : py_gt a b = negb (py_le a b).
Proof.
  unfold py_gt, py_lt, py_le, String.ltb, String.leb.
  rewrite (String.compare_antisym a b).
  by destruct (String.compare b a).
Qed.

Lemma py_lt_not_ge (a b : string) : py_lt a b = negb (py_ge a b).
Proof. exact (py_gt_not_le b a). Qed.

Lemma py_le_empty (b : string) : py_le "" b = true.
Proof. by destruct b. Qed.

Lemma eqb_empty_false (s : string) : s ≠ "" → String.eqb s "" = false.
Proof. intros Hs. by apply String.eqb_neq. Qed.

Section ActiveWindow.
Context {E : Externals}.

Lemma is_active_in_window (today : string) (d : Document E) :
  get (doc_fields d) "end_date" ≠ Some "" →
  is_active today d = in_window today d.
Proof.
  intros Hend. unfold is_active, in_window, truthy_and, absent_or.
  destruct (get (doc_fields d) "start_date") as [s|];
    destruct (get (doc_fields d) "end_date") as [e|]; simpl.
  - rewrite (eqb_empty_false e) by congruence.
    rewrite py_gt_not_le, py_lt_not_ge.
    destruct (String.eqb_spec s "") as [->|_].
    + rewrite py_le_empty. by destruct (py_ge e today).
    + by destruct (py_le s today), (py_ge e today).
  - rewrite py_gt_not_le.
    destruct (String.eqb_spec s "") as [->|_].
    + by rewrite py_le_empty.
    + by destruct (py_le s today).
  - rewrite (eqb_empty_false e) by congruence.
    rewrite py_lt_not_ge. by destruct (py_ge e today).
  - done.
Qed.

Lemma active_announcements_filter (today : string) (coll : list (Document E)) :
  active_announcements today coll
  = with_str_id <$> List.filter (is_active today) coll.
Proof.
  induction coll as [|d coll IH]; simpl; [done|].
  destruct (is_active today d); simpl; by rewrite IH.
Qed.

(** C1. Over a collection whose end dates, where present, are date
    strings (not the empty string), list-active returns exactly the
    records with (start_date absent or start_date <= today) and (end_date
    absent or end_date >= today), in store order, under the lexicographic
    order on strings. "Exam week" (2025-01-01 to 2025-01-10) is returned
    on 2025-01-05 and not on 2025-01-11. *)
Theorem get_active_announcements_window (db : Store E) (today : string) :
  end_dates_nonempty db →
  get_active_announcements db today
  = Return (with_str_id <$>
              List.filter (in_window today) (announcements_collection db))
  ∧ (∀ d, d ∈ announcements_collection db →
       is_active today d = true ↔
       (get (doc_fields d) "start_date" = None
        ∨ ∃ s, get (doc_fields d) "start_date" = Some s ∧ py_le s today = true)
       ∧ (get (doc_fields d) "end_date" = None
          ∨ ∃ e, get (doc_fields d) "end_date" = Some e ∧ py_ge e today = true))
  ∧ (∀ oid teachers,
       let d := mkDocument oid exam_week in
       get_active_announcements (mkStore [d] teachers) "2025-01-05"
       = Return [with_str_id d]
       ∧ get_active_announcements (mkStore [d] teachers) "2025-01-11"
         = Return []).
Proof.
  unfold end_dates_nonempty. intros Hwf. split; [|split].
  - unfold get_active_announcements. f_equal.
    rewrite active_announcements_filter. f_equal.
    induction Hwf as [|d coll Hd _ IH]; simpl; [done|].
    rewrite (is_active_in_window today d Hd), IH. done.
  - intros d Hd.
    rewrite Forall_forall in Hwf. specialize (Hwf d Hd).
    rewrite (is_active_in_window today d Hwf).
    unfold in_window, absent_or. rewrite andb_true_iff.
    destruct (get (doc_fields d) "start_date") as [s|];
      destruct (get (doc_fields d) "end_date") as [e|];
      (split; [intros [Hs He]; split; [try (by left); right; eauto
                                      |try (by left); right; eauto]
              |intros [[Hs|(s' & Hs & Hs')] [He|(e' & He & He')]];
               simplify_eq; done]).
  - intros oid teachers. split; reflexivity.
Qed.

End ActiveWindow.

(** ** [str.replace] *)

Lemma app_empty_l (s : string) : "" +:+ s = s.
Proof. reflexivity. Qed.

Lemma app_cons (c : ascii) (a b : string) : String c a +:+ b = String c (a +:+ b).
Proof. reflexivity. Qed.

Lemma prefix_cons (c x : ascii) (old s : string) :
  String.prefix (String c old) (String x s)
  = if ascii_dec c x then String.prefix old s else false.
Proof. reflexivity. Qed.

Lemma prefix_app (old b : string) : String.prefix old (old +:+ b) = true.
Proof.
  induction old as [|c old IH]; [by destruct b|].
  rewrite app_cons. simpl. by destruct (ascii_dec c c).
Qed.

Lemma prefix_split (old s : string) :
  String.prefix old s = true → ∃ b, s = old +:+ b.
Proof.
  revert s. induction old as [|c old IH]; intros s Hp.
  - by exists s.
  - destruct s as [|x s]; [done|]. simpl in Hp.
    destruct (ascii_dec c x) as [->|]; [|done].
    destruct (IH s Hp) as (b & ->). by exists b.
Qed.

Lemma prefix_occurs (old s : string) : String.prefix old s = true → occurs old s.
Proof. intros (b & ->)%prefix_split. by exists "", b. Qed.

Lemma prefix_long (old a x : string) :
  String.length old ≤ String.length a →
  String.prefix old (a +:+ x) = String.prefix old a.
Proof.
  revert a. induction old as [|c old IH]; intros a Hlen.
  - by destruct a, x.
  - destruct a as [|y a]; [simpl in Hlen; lia|].
    rewrite app_cons. simpl. destruct (ascii_dec c y); [|done].
    apply IH. simpl in Hlen. lia.
Qed.

Lemma occurs_cons (old : string) (c : ascii) (s : string) :
  occurs old s → occurs old (String c s).
Proof. intros (a & b & ->). by exists (String c a), b. Qed.

Lemma occurs_app_r (old a1 a2 : string) : occurs old a2 → occurs old (a1 +:+ a2).
Proof.
  induction a1 as [|c a1 IH]; [done|].
  intros H. rewrite app_cons. by apply occurs_cons, IH.
Qed.

(** After a match the scan resumes behind it. *)
Lemma replace_from_skip (old new x y : string) :
  replace_from old new (String.length x) (x +:+ y) = replace_from old new 0 y.
Proof. induction x as [|c x IH]; [by destruct y|]. by rewrite app_cons. Qed.

Lemma replace_from_match (old new b : string) :
  old ≠ "" →
  replace_from old new 0 (old +:+ b) = new +:+ replace_from old new 0 b.
Proof.
  destruct old as [|c old]; [done|]. intros _.
  rewrite app_cons. simpl replace_from.
  destruct (ascii_dec c c); [|done].
  rewrite prefix_app, Nat.sub_0_r. by rewrite replace_from_skip.
Qed.

(** The leftmost occurrence: everything before it is copied. *)
Lemma replace_from_leftmost (old new a b : string) :
  old ≠ "" →
  (∀ a1 a2, a = a1 +:+ a2 → a2 ≠ "" →
     String.prefix old (a2 +:+ old +:+ b) = false) →
  replace_from old new 0 (a +:+ old +:+ b)
  = a +:+ new +:+ replace_from old new 0 b.
Proof.
  intros Hold. induction a as [|c a IH]; intros Hleft.
  - rewrite !app_empty_l. by apply replace_from_match.
  - pose proof (Hleft "" (String c a) eq_refl ltac:(done)) as Hp.
    rewrite !app_cons in *. simpl replace_from.
    change (match old with "" => true | String a0 s1' =>
              if ascii_dec a0 c then String.prefix s1' (a +:+ old +:+ b) else false
            end) with (String.prefix old (String c (a +:+ old +:+ b))).
    rewrite Hp. f_equal. apply IH.
    intros a1 a2 -> Ha2. by apply (Hleft (String c a1) a2).
Qed.

Lemma replace_from_no_occurrence (old new s : string) :
  ¬ occurs old s → replace_from old new 0 s = s.
Proof.
  induction s as [|c s IH]; intros Hno; [done|].
  simpl replace_from.
  change (match old with "" => true | String a0 s1' =>
            if ascii_dec a0 c then String.prefix s1' s else false
          end) with (String.prefix old (String c s)).
  destruct (String.prefix old (String c s)) eqn:Hp.
  - destruct Hno. by apply prefix_occurs.
  - f_equal. apply IH. intros H. apply Hno. by apply occurs_cons.
Qed.

(** ["Bearer "] has no proper prefix that is also a suffix, so a match
    cannot start before an occurrence and run into it. *)
Lemma bearer_no_straddle (a b : string) :
  a ≠ "" → String.length a < 7 →
  String.prefix "Bearer " (a +:+ "Bearer " +:+ b) = false.
Proof.
  intros Ha Hlen.
  destruct a as [|c1 [|c2 [|c3 [|c4 [|c5 [|c6 [|c7 a]]]]]]];
    [done| | | | | | | simpl in Hlen; lia];
    rewrite ?app_cons, app_empty_l;
    repeat (rewrite prefix_cons;
            match goal with
            | |- context [ascii_dec ?x ?y] =>
                destruct (ascii_dec x y); [subst|done]
            end); done.
Qed.

Lemma bearer_leftmost (a b : string) :
  ¬ occurs "Bearer " a →
  ∀ a1 a2, a = a1 +:+ a2 → a2 ≠ "" →
    String.prefix "Bearer " (a2 +:+ "Bearer " +:+ b) = false.
Proof.
  intros Hno a1 a2 -> Ha2.
  destruct (decide (String.length a2 < 7)) as [Hlt|Hge].
  - by apply bearer_no_straddle.
  - rewrite prefix_long by (simpl; lia).
    destruct (String.prefix "Bearer " a2) eqn:Hp; [|done].
    destruct Hno. by apply occurs_app_r, prefix_occurs.
Qed.

(** [h.replace("Bearer ", "")] deletes each occurrence: a string cut at
    its occurrences of ["Bearer "] is mapped to its pieces joined. *)
Lemma replace_bearer_segments (segs : list string) :
  Forall (fun a => ¬ occurs "Bearer " a) segs →
  replace (String.concat "Bearer " segs) "Bearer " "" = String.concat "" segs.
Proof.
  unfold replace. induction 1 as [|a segs Ha Hsegs IH]; [done|].
  destruct segs as [|a' segs].
  - simpl String.concat. by apply replace_from_no_occurrence.
  - change (String.concat "Bearer " (a :: a' :: segs))
      with (a +:+ "Bearer " +:+ String.concat "Bearer " (a' :: segs)).
    change (String.concat "" (a :: a' :: segs))
      with (a +:+ "" +:+ String.concat "" (a' :: segs)).
    rewrite replace_from_leftmost; [|done|by apply bearer_leftmost].
    by rewrite IH.
Qed.

Lemma replace_bearer_none (s : string) :
  ¬ occurs "Bearer " s → replace s "Bearer " "" = s.
Proof. apply replace_from_no_occurrence. Qed.

Lemma replace_bearer_scheme (username : string) :
  ¬ occurs "Bearer " username →
  replace ("Bearer " +:+ username) "Bearer " "" = username.
Proof.
  intros Hno.
  pose proof (replace_bearer_segments [""; username]) as H.
  simpl String.concat in H. rewrite !app_empty_l in H. apply H.
  repeat constructor; [|done].
  intros (a & b & Hab). by destruct a.
Qed.

(** ** Authentication *)

Section Auth.
Context {E : Externals}.

Lemma find_one_Some (coll : list Teacher.t) (_id : string) (teacher : Teacher.t) :
  find_one coll _id = Some teacher →
  teacher ∈ coll ∧ Teacher._id teacher = _id.
Proof.
  unfold find_one. intros H. apply find_some in H as [Hin Heq].
  split; [by apply list_elem_of_In|by apply String.eqb_eq].
Qed.

Lemma find_one_None (coll : list Teacher.t) (_id : string) :
  find_one coll _id = None ↔ ∀ teacher, teacher ∈ coll → Teacher._id teacher ≠ _id.
Proof.
  unfold find_one. split.
  - intros H teacher Hin Heq.
    apply list_elem_of_In in Hin. apply (find_none _ _ H) in Hin.
    by apply String.eqb_neq in Hin.
  - intros H. destruct (find _ coll) as [teacher|] eqn:Hf; [|done].
    apply find_some in Hf as [Hin Heq%String.eqb_eq].
    destruct (H teacher); [by apply list_elem_of_In|done].
Qed.

Lemma NoDup_fmap_same {A B : Type} (f : A → B) (l : list A) (x y : A) :
  NoDup (f <$> l) → x ∈ l → y ∈ l → f x = f y → x = y.
Proof.
  induction l as [|a l IH]; [by intros _ ?%elem_of_nil|].
  rewrite fmap_cons. intros [Ha Hl]%NoDup_cons.
  intros [->|Hx]%elem_of_cons [->|Hy]%elem_of_cons Heq; [done| | |by apply IH].
  - destruct Ha. rewrite Heq. by apply list_elem_of_fmap_2.
  - destruct Ha. rewrite <- Heq. by apply list_elem_of_fmap_2.
Qed.

(** The lookup finds a teacher whenever one with the identifier is in
    the collection: the first one, which is the only one when the
    identifiers are unique. *)
Lemma find_one_member (coll : list Teacher.t) (_id : string) (teacher : Teacher.t) :
  teacher ∈ coll → Teacher._id teacher = _id →
  ∃ found,
    find_one coll _id = Some found
    ∧ found ∈ coll ∧ Teacher._id found = _id
    ∧ (NoDup (Teacher._id <$> coll) → found = teacher).
Proof.
  intros Hin Hid.
  destruct (find_one coll _id) as [found|] eqn:Hf.
  - apply find_one_Some in Hf as [Hfin Hfid]. exists found.
    split; [done|]. split; [done|]. split; [done|].
    intros Hnd. apply (NoDup_fmap_same Teacher._id coll); [done..|congruence].
  - rewrite find_one_None in Hf. by destruct (Hf teacher Hin).
Qed.

(** C3. An unknown username and a known username with a password that
    does not verify are answered by the same 401 error; any two failed
    logins, on any stores, are equal; login succeeds exactly when the
    username has a record whose stored hash verifies the password. In
    terms of the collection: a username that no teacher has fails, and
    with unique identifiers login succeeds exactly when a teacher in the
    collection has the username and a hash that verifies the password. *)
Theorem login_unauthorized_uniform (db : Store E) (username password : string) :
  (find_one (teachers_collection db) username = None →
     login db username password = Raise invalid_login)
  ∧ (∀ teacher,
       find_one (teachers_collection db) username = Some teacher →
       verify_password (default "" (Teacher.password teacher)) password = false →
       login db username password = Raise invalid_login)
  ∧ (is_ok (login db username password) = true ↔
     ∃ teacher,
       find_one (teachers_collection db) username = Some teacher
       ∧ verify_password (default "" (Teacher.password teacher)) password = true)
  ∧ (∀ (db' : Store E) username' password',
       is_ok (login db username password) = false →
       is_ok (login db' username' password') = false →
       login db username password = login db' username' password')
  ∧ ((∀ teacher, teacher ∈ teachers_collection db →
        Teacher._id teacher ≠ username) →
     login db username password = Raise invalid_login)
  ∧ (NoDup (Teacher._id <$> teachers_collection db) →
     (is_ok (login db username password) = true ↔
      ∃ teacher,
        teacher ∈ teachers_collection db
        ∧ Teacher._id teacher = username
        ∧ verify_password (default "" (Teacher.password teacher)) password
          = true)).
Proof.
  assert (Hfail : ∀ (d : Store E) u p,
            is_ok (login d u p) = false → login d u p = Raise invalid_login).
  { intros d u p. unfold login.
    destruct (find_one (teachers_collection d) u) as [t|]; [|done].
    by destruct (verify_password _ p). }
  assert (Hiff : is_ok (login db username password) = true ↔
            ∃ teacher,
              find_one (teachers_collection db) username = Some teacher
              ∧ verify_password (default "" (Teacher.password teacher)) password
                = true).
  { unfold login. split.
    - destruct (find_one (teachers_collection db) username) as [t|]; [|done].
      destruct (verify_password _ password) eqn:Hv; [|done]. eauto.
    - intros (t & -> & Hv). by rewrite Hv. }
  split; [|split; [|split; [|split; [|split]]]].
  - intros H. unfold login. by rewrite H.
  - intros teacher H Hv. unfold login. by rewrite H, Hv.
  - exact Hiff.
  - intros db' username' password' H1 H2.
    by rewrite (Hfail _ _ _ H1), (Hfail _ _ _ H2).
  - intros Hnone%find_one_None. unfold login. by rewrite Hnone.
  - intros Hnd. rewrite Hiff. split.
    + intros (t & [Hin Hid]%find_one_Some & Hv). eauto.
    + intros (t & Hin & Hid & Hv).
      destruct (find_one_member _ _ t Hin Hid) as (found & Hf & _ & _ & Heq).
      exists found. split; [done|]. by rewrite (Heq Hnd).
Qed.

Lemma get_current_user_nonempty (db : Store E) (h : string) :
  h ≠ "" →
  get_current_user db (Some h)
  = match find_one (teachers_collection db) (replace h "Bearer " "") with
    | None => Raise (mkHTTPException HTTP_401_UNAUTHORIZED
                       "Invalid authentication credentials")
    | Some teacher => Return (identity teacher)
    end.
Proof.
  intros Hh. unfold get_current_user, truthy. simpl.
  by rewrite (eqb_empty_false h Hh).
Qed.

(** The gate on a non-empty header, in terms of the collection. *)
Lemma get_current_user_member (db : Store E) (h : string) :
  h ≠ "" →
  let username := replace h "Bearer " "" in
  ((∀ teacher, teacher ∈ teachers_collection db →
      Teacher._id teacher ≠ username) →
   get_current_user db (Some h)
   = Raise (mkHTTPException HTTP_401_UNAUTHORIZED
              "Invalid authentication credentials"))
  ∧ (∀ teacher,
       teacher ∈ teachers_collection db → Teacher._id teacher = username →
       ∃ found,
         found ∈ teachers_collection db
         ∧ Teacher._id found = username
         ∧ get_current_user db (Some h) = Return (identity found)
         ∧ (NoDup (Teacher._id <$> teachers_collection db) → found = teacher)).
Proof.
  intros Hh username. rewrite (get_current_user_nonempty db h Hh).
  fold username. split.
  - intros Hnone%find_one_None. by rewrite Hnone.
  - intros teacher Hin Hid.
    destruct (find_one_member _ _ teacher Hin Hid)
      as (found & Hf & Hfin & Hfid & Heq).
    exists found. by rewrite Hf.
Qed.

(** C4 as the code has it. Without a header, and with an empty header
    value, the gate fails with 401. With a non-empty header the
    credential, which is the username itself after the scheme ["Bearer "],
    is compared with the [_id] of the teachers: if no teacher in the
    collection has it the gate fails with 401; if a teacher in the
    collection has it the gate returns the username, display name and role
    of a teacher with that [_id], which is that teacher when identifiers
    are unique. *)
Theorem get_current_user_gate (db : Store E) (authorization : option string) :
  (authorization = None ∨ authorization = Some "" →
     get_current_user db authorization
     = Raise (mkHTTPException HTTP_401_UNAUTHORIZED "Not authenticated"))
  ∧ (∀ h, authorization = Some h → h ≠ "" →
       let username := replace h "Bearer " "" in
       ((∀ teacher, teacher ∈ teachers_collection db →
           Teacher._id teacher ≠ username) →
          fails_with (get_current_user db authorization) HTTP_401_UNAUTHORIZED)
       ∧ (∀ teacher,
            teacher ∈ teachers_collection db →
            Teacher._id teacher = username →
            ∃ found,
              found ∈ teachers_collection db
              ∧ Teacher._id found = username
              ∧ get_current_user db authorization = Return (identity found)
              ∧ (NoDup (Teacher._id <$> teachers_collection db) →
                 found = teacher)))
  ∧ (∀ username, ¬ occurs "Bearer " username →
       replace ("Bearer " +:+ username) "Bearer " "" = username).
Proof.
  split; [|split].
  - by intros [->| ->].
  - intros h -> Hh username.
    destruct (get_current_user_member db h Hh) as [Hnone Hsome]. split.
    + intros H. fold username in Hnone. rewrite (Hnone H). by eexists.
    + exact Hsome.
  - apply replace_bearer_scheme.
Qed.

(** C10. For a non-empty header [h] the gate looks up
    [h.replace("Bearer ", "")]: it fails with 401 when no teacher in the
    collection has that [_id] and returns the identity of a teacher with
    that [_id] when one has (that teacher when identifiers are unique).
    Every occurrence of ["Bearer "] is deleted wherever it stands, so a
    header cut at its occurrences is looked up as its pieces joined, and a
    header without any occurrence (a bare username) is accepted whenever a
    teacher has it as [_id] and authenticates as that username. *)
Theorem get_current_user_replaces_bearer (db : Store E) (h : string) :
  h ≠ "" →
  ((∀ teacher, teacher ∈ teachers_collection db →
      Teacher._id teacher ≠ replace h "Bearer " "") →
   get_current_user db (Some h)
   = Raise (mkHTTPException HTTP_401_UNAUTHORIZED
              "Invalid authentication credentials"))
  ∧ (∀ teacher,
       teacher ∈ teachers_collection db →
       Teacher._id teacher = replace h "Bearer " "" →
       ∃ found,
         found ∈ teachers_collection db
         ∧ Teacher._id found = replace h "Bearer " ""
         ∧ get_current_user db (Some h) = Return (identity found)
         ∧ (NoDup (Teacher._id <$> teachers_collection db) → found = teacher))
  ∧ (∀ segs, Forall (fun a => ¬ occurs "Bearer " a) segs →
       h = String.concat "Bearer " segs →
       replace h "Bearer " "" = String.concat "" segs)
  ∧ (¬ occurs "Bearer " h →
     ∀ teacher,
       teacher ∈ teachers_collection db → Teacher._id teacher = h →
       ∃ found,
         found ∈ teachers_collection db
         ∧ Teacher._id found = h
         ∧ get_current_user db (Some h) = Return (identity found)
         ∧ (NoDup (Teacher._id <$> teachers_collection db) → found = teacher))
  ∧ replace "xBearer yBearer z" "Bearer " "" = "xyz".
Proof.
  intros Hh.
  destruct (get_current_user_member db h Hh) as [Hnone Hsome].
  split; [|split; [|split; [|split]]].
  - exact Hnone.
  - exact Hsome.
  - intros segs Hsegs ->. by apply replace_bearer_segments.
  - intros Hno teacher Hin Hid.
    rewrite (replace_bearer_none h Hno) in Hsome. by apply Hsome.
  - reflexivity.
Qed.

Lemma identity_public (teacher : Teacher.t) :
  dom (identity teacher) = public_keys
  ∧ identity teacher !! "password" = None
  ∧ identity teacher !! "username" = Some (Teacher.username teacher)
  ∧ identity teacher !! "display_name" = Some (Teacher.display_name teacher)
  ∧ identity teacher !! "role" = Some (Teacher.role teacher).
Proof.
  unfold identity, public_keys. split.
  - rewrite !dom_insert_L, dom_singleton_L. set_solver.
  - by repeat split.
Qed.

(** A successful response is the [identity] of a stored teacher. *)
Lemma login_Return (db : Store E) (username password : string) r :
  login db username password = Return r →
  ∃ teacher, teacher ∈ teachers_collection db ∧ r = identity teacher.
Proof.
  unfold login.
  destruct (find_one (teachers_collection db) username) as [t|] eqn:Ht; [|done].
  destruct (verify_password _ password); [|done].
  intros [= <-]. exists t. split; [|done]. by apply find_one_Some in Ht as [? _].
Qed.

Lemma check_session_Return (db : Store E) (username : string) r :
  check_session db username = Return r →
  ∃ teacher, teacher ∈ teachers_collection db ∧ r = identity teacher.
Proof.
  unfold check_session.
  destruct (find_one (teachers_collection db) username) as [t|] eqn:Ht; [|done].
  intros [= <-]. exists t. split; [|done]. by apply find_one_Some in Ht as [? _].
Qed.

Lemma get_current_user_Return (db : Store E) (authorization : option string) r :
  get_current_user db authorization = Return r →
  ∃ teacher, teacher ∈ teachers_collection db ∧ r = identity teacher.
Proof.
  unfold get_current_user.
  destruct (truthy authorization); [|done]. simpl.
  destruct (find_one (teachers_collection db) _) as [t|] eqn:Ht; [|done].
  intros [= <-]. exists t. split; [|done]. by apply find_one_Some in Ht as [? _].
Qed.

Lemma find_one_public (coll coll' : list Teacher.t) (_id : string) :
  public_part <$> coll = public_part <$> coll' →
  public_part <$> find_one coll _id = public_part <$> find_one coll' _id.
Proof.
  revert coll'. induction coll as [|t coll IH]; intros [|t' coll'] H;
    try done.
  rewrite !fmap_cons in H. injection H as Hid Hu Hd Hr Hrest.
  change (find_one (t :: coll) _id)
    with (if String.eqb (Teacher._id t) _id then Some t else find_one coll _id).
  change (find_one (t' :: coll') _id)
    with (if String.eqb (Teacher._id t') _id then Some t' else find_one coll' _id).
  rewrite <- Hid. destruct (String.eqb (Teacher._id t) _id).
  - simpl. unfold public_part. congruence.
  - by apply IH.
Qed.

Lemma identity_public_part (t t' : Teacher.t) :
  public_part t = public_part t' → identity t = identity t'.
Proof.
  unfold public_part, identity. intros H.
  injection H as _ Hu Hd Hr. by rewrite Hu, Hd, Hr.
Qed.

(** C8. A successful response of login, of the session check and of the
    gate is a dict with exactly the keys username, display_name and role,
    holding those fields of a stored teacher; it has no password key. The
    responses of the session check and of the gate, and the response of a
    successful login, are the same on two stores that differ only in the
    stored password hashes. *)
Theorem responses_public_fields (db : Store E) :
  (∀ r : gmap string string,
     (∃ username password, login db username password = Return r)
     ∨ (∃ username, check_session db username = Return r)
     ∨ (∃ authorization, get_current_user db authorization = Return r) →
     dom r = public_keys
     ∧ r !! "password" = None
     ∧ ∃ teacher, teacher ∈ teachers_collection db
         ∧ r !! "username" = Some (Teacher.username teacher)
         ∧ r !! "display_name" = Some (Teacher.display_name teacher)
         ∧ r !! "role" = Some (Teacher.role teacher))
  ∧ (∀ db' : Store E,
       public_part <$> teachers_collection db
       = public_part <$> teachers_collection db' →
       (∀ username, check_session db username = check_session db' username)
       ∧ (∀ authorization,
            get_current_user db authorization
            = get_current_user db' authorization)
       ∧ (∀ username password password' r r',
            login db username password = Return r →
            login db' username password' = Return r' →
            r = r')).
Proof.
  split.
  - intros r H.
    assert (∃ teacher, teacher ∈ teachers_collection db ∧ r = identity teacher)
      as (t & Hin & ->).
    { destruct H as [(u & p & H)|[(u & H)|(a & H)]];
        eauto using login_Return, check_session_Return, get_current_user_Return. }
    destruct (identity_public t) as (? & ? & ? & ? & ?). eauto 10.
  - intros db' Hsame.
    assert (Hfind : ∀ u,
              identity <$> find_one (teachers_collection db) u
              = identity <$> find_one (teachers_collection db') u).
    { intros u. pose proof (find_one_public _ _ u Hsame) as H.
      destruct (find_one (teachers_collection db) u) as [t|],
        (find_one (teachers_collection db') u) as [t'|]; try done.
      simpl in *. f_equal. apply identity_public_part. congruence. }
    split; [|split].
    + intros u. unfold check_session. specialize (Hfind u).
      destruct (find_one (teachers_collection db) u),
        (find_one (teachers_collection db') u); simpl in Hfind; try done.
      f_equal. exact (inj Some _ _ Hfind).
    + intros a. unfold get_current_user.
      destruct (truthy a); [|done]. simpl.
      specialize (Hfind (replace (default "" a) "Bearer " "")).
      destruct (find_one (teachers_collection db) _),
        (find_one (teachers_collection db') _); simpl in Hfind; try done.
      f_equal. exact (inj Some _ _ Hfind).
    + intros u p p' r r'. unfold login. specialize (Hfind u).
      destruct (find_one (teachers_collection db) u),
        (find_one (teachers_collection db') u); simpl in Hfind; try done.
      destruct (verify_password _ p), (verify_password _ p'); try done.
      intros [= <-] [= <-]. exact (inj Some _ _ Hfind).
Qed.

End Auth.

(** ** The announcements collection *)

Section Collection.
Context {E : Externals}.

Lemma has_id_false (coll : list (Document E)) (oid : ObjectId) :
  has_id coll oid = false ↔ ∀ d, d ∈ coll → doc_id d ≠ oid.
Proof.
  unfold has_id. induction coll as [|d coll IH]; simpl.
  - split; [intros _ d Hd; by apply elem_of_nil in Hd|done].
  - rewrite orb_false_iff, IH, bool_decide_eq_false. split.
    + intros [Hd Hc] x [->|Hx]%elem_of_cons; auto.
    + intros H. split; [apply H; left|intros x Hx; apply H; by right].
Qed.

Lemma has_id_app (l1 l2 : list (Document E)) (oid : ObjectId) :
  has_id (l1 ++ l2) oid = has_id l1 oid || has_id l2 oid.
Proof. unfold has_id. apply existsb_app. Qed.

(** The first document with a given identifier. *)
Lemma has_id_split (coll : list (Document E)) (oid : ObjectId) :
  has_id coll oid = true →
  ∃ l1 d l2, coll = l1 ++ d :: l2 ∧ doc_id d = oid ∧ has_id l1 oid = false.
Proof.
  induction coll as [|x coll IH]; [done|].
  unfold has_id. simpl. destruct (bool_decide (doc_id x = oid)) eqn:Hx.
  - intros _. exists [], x, coll. by apply bool_decide_eq_true in Hx.
  - simpl. intros (l1 & d & l2 & -> & Hd & Hl1)%IH.
    exists (x :: l1), d, l2. split; [done|]. split; [done|].
    unfold has_id. simpl. by rewrite Hx.
Qed.

Lemma update_one_unmatched (coll : list (Document E)) oid update_data :
  has_id coll oid = false → update_one coll oid update_data = (0, coll).
Proof.
  induction coll as [|x coll IH]; [done|].
  unfold has_id. simpl. intros [Hx Hc]%orb_false_iff.
  rewrite Hx. by rewrite (IH Hc).
Qed.

Lemma update_one_first (l1 l2 : list (Document E)) d oid update_data :
  doc_id d = oid → has_id l1 oid = false →
  update_one (l1 ++ d :: l2) oid update_data
  = (1, l1 ++ mkDocument oid (update_data ∪ doc_fields d) :: l2).
Proof.
  intros Hd. induction l1 as [|x l1 IH]; simpl.
  - intros _. rewrite bool_decide_eq_true_2 by done. by rewrite Hd.
  - unfold has_id. simpl. intros [Hx Hc]%orb_false_iff.
    rewrite Hx. by rewrite (IH Hc).
Qed.

Lemma delete_one_unmatched (coll : list (Document E)) oid :
  has_id coll oid = false → delete_one coll oid = (0, coll).
Proof.
  induction coll as [|x coll IH]; [done|].
  unfold has_id. simpl. intros [Hx Hc]%orb_false_iff.
  rewrite Hx. by rewrite (IH Hc).
Qed.

Lemma delete_one_first (l1 l2 : list (Document E)) d oid :
  doc_id d = oid → has_id l1 oid = false →
  delete_one (l1 ++ d :: l2) oid = (1, l1 ++ l2).
Proof.
  intros Hd. induction l1 as [|x l1 IH]; simpl.
  - intros _. by rewrite bool_decide_eq_true_2.
  - unfold has_id. simpl. intros [Hx Hc]%orb_false_iff.
    rewrite Hx. by rewrite (IH Hc).
Qed.

Lemma delete_one_subset (coll : list (Document E)) oid d :
  d ∈ (delete_one coll oid).2 → d ∈ coll.
Proof.
  induction coll as [|x coll IH]; [done|]. simpl.
  destruct (bool_decide (doc_id x = oid)); simpl.
  - by right.
  - destruct (delete_one coll oid) as [n rest]. simpl in *.
    intros [->|?]%elem_of_cons; [left|right; auto].
Qed.

Lemma unique_ids_rest (l1 l2 : list (Document E)) d :
  NoDup (doc_id <$> (l1 ++ d :: l2)) → has_id (l1 ++ l2) (doc_id d) = false.
Proof.
  rewrite fmap_app, fmap_cons. intros (H1 & H2 & H3)%NoDup_app.
  apply NoDup_cons in H3 as [H3 _].
  apply has_id_false. intros x [Hx|Hx]%elem_of_app Heq.
  - apply (H2 (doc_id x)); [by apply list_elem_of_fmap_2|].
    rewrite Heq. by left.
  - apply H3. rewrite <- Heq. by apply list_elem_of_fmap_2.
Qed.

Lemma filter_not_id (coll : list (Document E)) oid :
  has_id coll oid = false →
  List.filter (fun d => negb (bool_decide (doc_id d = oid))) coll = coll.
Proof.
  induction coll as [|x coll IH]; [done|].
  unfold has_id. simpl. intros [Hx Hc]%orb_false_iff.
  rewrite Hx. simpl. by rewrite (IH Hc).
Qed.

End Collection.

(** ** Delete *)

Section Delete.
Context {E : Externals}.

Lemma with_str_id_lookup (d : Document E) :
  with_str_id d !! "_id" = Some (Some (str (doc_id d))).
Proof. unfold with_str_id. by rewrite lookup_insert_eq. Qed.

Lemma active_announcements_subset today (coll : list (Document E)) r :
  r ∈ active_announcements today coll → ∃ d, d ∈ coll ∧ r = with_str_id d.
Proof.
  rewrite active_announcements_filter.
  intros (d & -> & Hd)%list_elem_of_fmap.
  exists d. split; [|done].
  apply list_elem_of_In. apply list_elem_of_In, filter_In in Hd. tauto.
Qed.

Lemma delete_announcement_found (db : Store E) announcement_id current_user
    oid l1 d l2 :
  ObjectId_of_str announcement_id = Some oid →
  announcements_collection db = l1 ++ d :: l2 →
  doc_id d = oid → has_id l1 oid = false →
  delete_announcement db announcement_id current_user
  = (Return "Announcement deleted successfully",
     set_announcements db (l1 ++ l2)).
Proof.
  intros Hid Hcoll Hd Hl1. unfold delete_announcement.
  by rewrite Hid, Hcoll, (delete_one_first l1 l2 d oid Hd Hl1).
Qed.

Lemma delete_announcement_missing (db : Store E) announcement_id current_user oid :
  ObjectId_of_str announcement_id = Some oid →
  has_id (announcements_collection db) oid = false →
  delete_announcement db announcement_id current_user
  = (Raise (mkHTTPException HTTP_404_NOT_FOUND "Announcement not found"), db).
Proof.
  intros Hid Hno. unfold delete_announcement.
  rewrite Hid, (delete_one_unmatched _ _ Hno). simpl.
  by destruct db.
Qed.

(** C9. Delete with a malformed identifier fails with 400 and leaves
    the store as it is. Delete of an existing record succeeds and removes
    it: the other records stay, in order, and neither list-all nor
    list-active returns a record with that identifier afterwards. A second
    delete of the same identifier fails with 404. Identifiers are unique
    in the collection and [str] tells identifiers apart. *)
Theorem delete_announcement_removes (db : Store E)
    (announcement_id : string) (current_user : gmap string string) :
  unique_ids db →
  (∀ a b : ObjectId, str a = str b → a = b) →
  (ObjectId_of_str announcement_id = None →
     fails_with (delete_announcement db announcement_id current_user).1
       HTTP_400_BAD_REQUEST
     ∧ (delete_announcement db announcement_id current_user).2 = db)
  ∧ (∀ oid,
       ObjectId_of_str announcement_id = Some oid →
       has_id (announcements_collection db) oid = true →
       let db' := (delete_announcement db announcement_id current_user).2 in
       is_ok (delete_announcement db announcement_id current_user).1 = true
       ∧ announcements_collection db'
         = List.filter (fun d => negb (bool_decide (doc_id d = oid)))
             (announcements_collection db)
       ∧ teachers_collection db' = teachers_collection db
       ∧ (∀ user rs, get_all_announcements db' user = Return rs →
            ∀ r, r ∈ rs → r !! "_id" ≠ Some (Some (str oid)))
       ∧ (∀ today rs, get_active_announcements db' today = Return rs →
            ∀ r, r ∈ rs → r !! "_id" ≠ Some (Some (str oid)))
       ∧ fails_with (delete_announcement db' announcement_id current_user).1
           HTTP_404_NOT_FOUND
       ∧ (delete_announcement db' announcement_id current_user).2 = db').
Proof.
  intros Huniq Hstr. split.
  - intros Hid. unfold delete_announcement. rewrite Hid. simpl.
    split; [by eexists|done].
  - intros oid Hid Hhas db'.
    destruct (has_id_split _ _ Hhas) as (l1 & d & l2 & Hcoll & Hd & Hl1).
    assert (Hdel := delete_announcement_found db announcement_id current_user
                      oid l1 d l2 Hid Hcoll Hd Hl1).
    assert (Hgone : has_id (l1 ++ l2) oid = false).
    { rewrite <- Hd. apply unique_ids_rest.
      unfold unique_ids in Huniq. by rewrite Hcoll in Huniq. }
    assert (Hdb' : db' = set_announcements db (l1 ++ l2)).
    { unfold db'. by rewrite Hdel. }
    assert (Hnot : ∀ x, x ∈ announcements_collection db' →
              str (doc_id x) ≠ str oid).
    { intros x Hx Heq. rewrite Hdb' in Hx. simpl in Hx.
      apply has_id_false with (d := x) in Hgone; [|done].
      by apply Hgone, Hstr. }
    rewrite Hdel. simpl. split; [done|]. rewrite Hdb'. simpl.
    split; [|split; [done|split; [|split]]].
    + rewrite Hcoll, List.filter_app. simpl.
      rewrite bool_decide_eq_true_2 by done. simpl.
      rewrite has_id_app in Hgone. apply orb_false_iff in Hgone as [? H2].
      by rewrite (filter_not_id l1 oid), (filter_not_id l2 oid).
    + intros user rs [= <-] r (x & -> & Hx)%list_elem_of_fmap.
      rewrite with_str_id_lookup. intros [= Heq].
      apply (Hnot x); [by rewrite Hdb'|done].
    + intros today rs [= <-] r (x & Hx & ->)%active_announcements_subset.
      rewrite with_str_id_lookup. intros [= Heq].
      apply (Hnot x); [by rewrite Hdb'|done].
    + rewrite (delete_announcement_missing (set_announcements db (l1 ++ l2)) _ _ oid Hid Hgone).
      split; [by eexists|done].
Qed.

End Delete.

(** ** Update *)

Section Update.
Context {E : Externals}.

Ltac case_payload req :=
  destruct req as [[m|] [s|] [e|]]; simpl;
  try (destruct (fromisoformat s) eqn:Hs; simpl);
  try (destruct (fromisoformat e) eqn:He; simpl);
  rewrite ?bool_decide_eq_false_2 by apply insert_non_empty;
  rewrite ?bool_decide_eq_true_2 by done;
  simpl.

Lemma build_update_data_Return (req : AnnouncementUpdate.t) update_data :
  build_update_data req = Return update_data →
  payload_ok req ∧ update_data = supplied req.
Proof.
  unfold build_update_data, supplied, payload_ok, bad_date, no_field.
  case_payload req; intros [= <-]; (split; [|done]);
    (split; [intros [(? & [= <-] & ?)|(? & [= <-] & ?)]; congruence
            |intros (? & ? & ?); congruence]).
Qed.

Lemma build_update_data_ok (req : AnnouncementUpdate.t) :
  payload_ok req → build_update_data req = Return (supplied req).
Proof.
  unfold build_update_data, supplied, payload_ok, bad_date, no_field.
  case_payload req; intros [Hbad Hnone]; try done;
    try (destruct Hbad; eauto; fail); try (destruct Hnone; eauto; fail).
Qed.

Lemma build_update_data_Raise (req : AnnouncementUpdate.t) exn :
  build_update_data req = Raise exn → status_code exn = HTTP_400_BAD_REQUEST.
Proof.
  unfold build_update_data. case_payload req; by intros [= <-].
Qed.

Lemma build_update_data_bad (req : AnnouncementUpdate.t) :
  bad_date req ∨ no_field req →
  fails_with (build_update_data req) HTTP_400_BAD_REQUEST.
Proof.
  intros Hbad.
  destruct (build_update_data req) as [u|[code msg]] eqn:Hb.
  - apply build_update_data_Return in Hb as [[H1 H2] _]. tauto.
  - apply build_update_data_Raise in Hb. simpl in Hb. subst. by eexists.
Qed.

Lemma supplied_lookup (req : AnnouncementUpdate.t) :
  supplied req !! "message" = Some <$> AnnouncementUpdate.message req
  ∧ supplied req !! "start_date" = Some <$> AnnouncementUpdate.start_date req
  ∧ supplied req !! "end_date" = Some <$> AnnouncementUpdate.end_date req
  ∧ ∀ k, k ≠ "message" → k ≠ "start_date" → k ≠ "end_date" →
      supplied req !! k = None.
Proof.
  unfold supplied. destruct req as [[m|] [s|] [e|]]; simpl;
    (split; [done|split; [done|split; [done|]]]); intros k ? ? ?;
    by rewrite ?lookup_insert_ne, lookup_empty by done.
Qed.

(** [$set]: a supplied key takes the supplied value, any other key keeps
    the stored one. *)
Lemma set_lookup (update_data fields : gmap string (option string)) k :
  (update_data ∪ fields) !! k
  = match update_data !! k with
    | Some v => Some v
    | None => fields !! k
    end.
Proof.
  rewrite lookup_union. by destruct (update_data !! k), (fields !! k).
Qed.

End Update.

Section UpdateHandler.
Context {E : Externals}.

Lemma set_announcements_same (db : Store E) :
  set_announcements db (announcements_collection db) = db.
Proof. by destruct db. Qed.

Lemma update_announcement_malformed (db : Store E) announcement_id req user :
  ObjectId_of_str announcement_id = None →
  update_announcement db announcement_id req user
  = (Raise (mkHTTPException HTTP_400_BAD_REQUEST "Invalid announcement ID"), db).
Proof. intros Hid. unfold update_announcement. by rewrite Hid. Qed.

Lemma update_announcement_invalid (db : Store E) announcement_id req user oid exn :
  ObjectId_of_str announcement_id = Some oid →
  build_update_data req = Raise exn →
  update_announcement db announcement_id req user = (Raise exn, db).
Proof. intros Hid Hb. unfold update_announcement. by rewrite Hid, Hb. Qed.

Lemma update_announcement_missing (db : Store E) announcement_id req user oid :
  ObjectId_of_str announcement_id = Some oid →
  payload_ok req →
  has_id (announcements_collection db) oid = false →
  update_announcement db announcement_id req user
  = (Raise (mkHTTPException HTTP_404_NOT_FOUND "Announcement not found"), db).
Proof.
  intros Hid Hok Hno. unfold update_announcement.
  rewrite Hid, (build_update_data_ok req Hok), (update_one_unmatched _ _ _ Hno).
  simpl. by rewrite set_announcements_same.
Qed.

Lemma update_announcement_found (db : Store E) announcement_id req user
    oid l1 d l2 :
  ObjectId_of_str announcement_id = Some oid →
  payload_ok req →
  announcements_collection db = l1 ++ d :: l2 →
  doc_id d = oid → has_id l1 oid = false →
  update_announcement db announcement_id req user
  = (Return "Announcement updated successfully",
     set_announcements db
       (l1 ++ mkDocument oid (supplied req ∪ doc_fields d) :: l2)).
Proof.
  intros Hid Hok Hcoll Hd Hl1. unfold update_announcement.
  rewrite Hid, (build_update_data_ok req Hok), Hcoll.
  by rewrite (update_one_first l1 l2 d oid _ Hd Hl1).
Qed.

(** What a successful update did. *)
Lemma update_announcement_Return (db db' : Store E) announcement_id req user msg :
  update_announcement db announcement_id req user = (Return msg, db') →
  ∃ oid l1 d l2,
    ObjectId_of_str announcement_id = Some oid
    ∧ payload_ok req
    ∧ announcements_collection db = l1 ++ d :: l2
    ∧ doc_id d = oid ∧ has_id l1 oid = false
    ∧ db' = set_announcements db
              (l1 ++ mkDocument oid (supplied req ∪ doc_fields d) :: l2).
Proof.
  intros H.
  destruct (ObjectId_of_str announcement_id) as [oid|] eqn:Hid;
    [|by rewrite update_announcement_malformed in H].
  destruct (build_update_data req) as [u|exn] eqn:Hb;
    [|by rewrite (update_announcement_invalid _ _ _ _ oid exn) in H].
  apply build_update_data_Return in Hb as [Hok ->].
  destruct (has_id (announcements_collection db) oid) eqn:Hhas;
    [|by rewrite (update_announcement_missing _ _ _ _ oid) in H].
  destruct (has_id_split _ _ Hhas) as (l1 & d & l2 & Hcoll & Hd & Hl1).
  rewrite (update_announcement_found _ _ _ _ oid l1 d l2) in H by done.
  injection H as _ <-. by exists oid, l1, d, l2.
Qed.

(** A failed update leaves the store as it was. *)
Lemma update_announcement_Raise (db db' : Store E) announcement_id req user exn :
  update_announcement db announcement_id req user = (Raise exn, db') → db' = db.
Proof.
  intros H.
  destruct (ObjectId_of_str announcement_id) as [oid|] eqn:Hid;
    [|rewrite update_announcement_malformed in H by done; by injection H].
  destruct (build_update_data req) as [u|exn'] eqn:Hb;
    [|rewrite (update_announcement_invalid _ _ _ _ oid exn') in H by done;
      by injection H].
  apply build_update_data_Return in Hb as [Hok ->].
  destruct (has_id (announcements_collection db) oid) eqn:Hhas;
    [|rewrite (update_announcement_missing _ _ _ _ oid) in H by done;
      by injection H].
  destruct (has_id_split _ _ Hhas) as (l1 & d & l2 & Hcoll & Hd & Hl1).
  by rewrite (update_announcement_found _ _ _ _ oid l1 d l2) in H.
Qed.

(** C5. A successful update rewrites one record, the first with the
    requested identifier, and nothing else in the store. In that record
    each supplied field holds the supplied value, each supplied date was
    accepted by the ISO parser, and every key that was not supplied keeps
    its stored value, whatever that value is. *)
Theorem update_announcement_frame (db db' : Store E) (announcement_id : string)
    (req : AnnouncementUpdate.t) (user : gmap string string) (msg : string) :
  update_announcement db announcement_id req user = (Return msg, db') →
  ∃ oid l1 d d' l2,
    ObjectId_of_str announcement_id = Some oid
    ∧ announcements_collection db = l1 ++ d :: l2
    ∧ announcements_collection db' = l1 ++ d' :: l2
    ∧ teachers_collection db' = teachers_collection db
    ∧ doc_id d = oid ∧ doc_id d' = oid ∧ has_id l1 oid = false
    ∧ (∀ m, AnnouncementUpdate.message req = Some m →
         doc_fields d' !! "message" = Some (Some m))
    ∧ (∀ s, AnnouncementUpdate.start_date req = Some s →
         fromisoformat s = true ∧ doc_fields d' !! "start_date" = Some (Some s))
    ∧ (∀ e, AnnouncementUpdate.end_date req = Some e →
         fromisoformat e = true ∧ doc_fields d' !! "end_date" = Some (Some e))
    ∧ (AnnouncementUpdate.message req = None →
         doc_fields d' !! "message" = doc_fields d !! "message")
    ∧ (AnnouncementUpdate.start_date req = None →
         doc_fields d' !! "start_date" = doc_fields d !! "start_date")
    ∧ (AnnouncementUpdate.end_date req = None →
         doc_fields d' !! "end_date" = doc_fields d !! "end_date")
    ∧ (∀ k, k ≠ "message" → k ≠ "start_date" → k ≠ "end_date" →
         doc_fields d' !! k = doc_fields d !! k).
Proof.
  intros (oid & l1 & d & l2 & Hid & [Hbad Hsome] & Hcoll & Hd & Hl1 & ->)
    %update_announcement_Return.
  exists oid, l1, d, (mkDocument oid (supplied req ∪ doc_fields d)), l2.
  destruct (supplied_lookup req) as (Hm & Hs & He & Hk). simpl.
  repeat (split; [done|]).
  split; [|split; [|split; [|split; [|split; [|split]]]]].
  - intros m Hreq. by rewrite set_lookup, Hm, Hreq.
  - intros s Hreq. split.
    + destruct (fromisoformat s) eqn:Hf; [done|].
      destruct Hbad. left. eauto.
    + by rewrite set_lookup, Hs, Hreq.
  - intros e Hreq. split.
    + destruct (fromisoformat e) eqn:Hf; [done|].
      destruct Hbad. right. eauto.
    + by rewrite set_lookup, He, Hreq.
  - intros Hreq. by rewrite set_lookup, Hm, Hreq.
  - intros Hreq. by rewrite set_lookup, Hs, Hreq.
  - intros Hreq. by rewrite set_lookup, He, Hreq.
  - intros k ? ? ?. by rewrite set_lookup, Hk.
Qed.

(** C6 as the code has it. A malformed identifier, a supplied date the
    ISO parser rejects, and a request without any field each fail with
    400; with a well-formed identifier and a valid, non-empty request the
    update fails with 404 when no record has the identifier and succeeds
    when one has. Every failure leaves the store as it was. *)
Theorem update_announcement_failures (db : Store E) (announcement_id : string)
    (req : AnnouncementUpdate.t) (user : gmap string string) :
  let r := (update_announcement db announcement_id req user).1 in
  let db' := (update_announcement db announcement_id req user).2 in
  (ObjectId_of_str announcement_id = None → fails_with r HTTP_400_BAD_REQUEST)
  ∧ (bad_date req → fails_with r HTTP_400_BAD_REQUEST)
  ∧ (no_field req → fails_with r HTTP_400_BAD_REQUEST)
  ∧ (∀ oid, ObjectId_of_str announcement_id = Some oid → payload_ok req →
       (has_id (announcements_collection db) oid = false →
          fails_with r HTTP_404_NOT_FOUND)
       ∧ (has_id (announcements_collection db) oid = true → is_ok r = true))
  ∧ (is_ok r = false → db' = db).
Proof.
  intros r db'.
  assert (Hbad : bad_date req ∨ no_field req → fails_with r HTTP_400_BAD_REQUEST).
  { intros Hb. unfold r.
    destruct (ObjectId_of_str announcement_id) as [oid|] eqn:Hid.
    - destruct (build_update_data_bad req Hb) as [m Hm].
      rewrite (update_announcement_invalid _ _ _ _ oid _ Hid Hm). by exists m.
    - rewrite update_announcement_malformed by done. by eexists. }
  split; [|split; [|split; [|split]]]; auto.
  - intros Hid. unfold r. rewrite update_announcement_malformed by done.
    by eexists.
  - intros oid Hid Hok. split; intros Hhas; unfold r.
    + rewrite (update_announcement_missing _ _ _ _ oid) by done. by eexists.
    + destruct (has_id_split _ _ Hhas) as (l1 & d & l2 & Hcoll & Hd & Hl1).
      by rewrite (update_announcement_found _ _ _ _ oid l1 d l2).
  - unfold r, db'.
    destruct (ObjectId_of_str announcement_id) as [oid|] eqn:Hid;
      [|by rewrite update_announcement_malformed].
    destruct (build_update_data req) as [u|exn] eqn:Hb;
      [|by rewrite (update_announcement_invalid _ _ _ _ oid exn)].
    apply build_update_data_Return in Hb as [Hok ->].
    destruct (has_id (announcements_collection db) oid) eqn:Hhas;
      [|by rewrite (update_announcement_missing _ _ _ _ oid)].
    destruct (has_id_split _ _ Hhas) as (l1 & d & l2 & Hcoll & Hd & Hl1).
    by rewrite (update_announcement_found _ _ _ _ oid l1 d l2).
Qed.

End UpdateHandler.

(** ** Create *)

Section Create.
Context {E : Externals}.

Lemma classic_create (req : AnnouncementCreate.t) :
  create_invalid req ∨ ¬ create_invalid req.
Proof.
  unfold create_invalid. destruct req as [m sd ed]. simpl.
  destruct (fromisoformat ed) eqn:Hed; [|by left; right; left].
  destruct sd as [s|];
    [|right; intros [(s & ? & _)|[?|(s & ? & _)]]; congruence].
  destruct (String.eqb_spec s "") as [->|Hs].
  { right. intros [(s & [= <-] & ? & _)|[?|(s & [= <-] & ? & _)]]; congruence. }
  destruct (fromisoformat s) eqn:Hf; [|left; left; eauto].
  destruct (String.eqb_spec ed "") as [->|He].
  { right.
    intros [(s' & [= <-] & ? & ?)|[?|(s' & [= <-] & ? & ? & ?)]]; congruence. }
  destruct (py_gt s ed) eqn:Hgt; [left; right; right; eauto 6|].
  right.
  intros [(s' & [= <-] & ? & ?)|[?|(s' & [= <-] & ? & ? & ?)]]; congruence.
Qed.

Lemma create_announcement_rejects (db : Store E) inserted_id req user :
  create_invalid req →
  fails_with (create_announcement db inserted_id req user).1 HTTP_400_BAD_REQUEST
  ∧ (create_announcement db inserted_id req user).2 = db.
Proof.
  unfold create_invalid, create_announcement, truthy_and, truthy.
  destruct req as [m sd ed]. simpl.
  intros [(s & -> & Hs & Hf)|[Hf|(s & -> & Hs & He & Hgt)]].
  - rewrite (eqb_empty_false s Hs), Hf. simpl. split; [by eexists|done].
  - rewrite Hf. destruct sd as [s|]; [destruct (String.eqb s "")|]; simpl;
      try destruct (fromisoformat s); simpl; (split; [by eexists|done]).
  - rewrite (eqb_empty_false s Hs), (eqb_empty_false ed He), Hgt.
    destruct (fromisoformat s), (fromisoformat ed); simpl;
      (split; [by eexists|done]).
Qed.

Lemma create_announcement_validated (db : Store E) inserted_id req user :
  ¬ create_invalid req →
  create_announcement db inserted_id req user
  = match insert_one (announcements_collection db) inserted_id
            (announcement_data req) with
    | None =>
        (Raise (mkHTTPException HTTP_500_INTERNAL_SERVER_ERROR
                  "Failed to create announcement"), db)
    | Some coll =>
        (Return (<["_id" := Some (str inserted_id)]> (announcement_data req)),
         set_announcements db coll)
    end.
Proof.
  unfold create_invalid, create_announcement, truthy_and, truthy.
  destruct req as [m sd ed]. simpl. intros Hok.
  destruct (fromisoformat ed) eqn:Hed; [|tauto]. simpl.
  destruct sd as [s|]; [|done].
  destruct (String.eqb_spec s "") as [->|Hs]; [done|].
  destruct (fromisoformat s) eqn:Hf; [|destruct Hok; left; eauto]. simpl.
  destruct (String.eqb_spec ed "") as [->|He]; [done|]. simpl.
  destruct (py_gt s ed) eqn:Hgt; [|done].
  destruct Hok. right. right. eauto 6.
Qed.

(** A valid request with a fresh identifier is persisted at the end of
    the collection and returned with the identifier as a string. *)
Lemma create_announcement_accepts (db : Store E) inserted_id req user :
  ¬ create_invalid req →
  has_id (announcements_collection db) inserted_id = false →
  create_announcement db inserted_id req user
  = (Return (<["_id" := Some (str inserted_id)]> (announcement_data req)),
     set_announcements db
       (announcements_collection db
          ++ [mkDocument inserted_id (announcement_data req)])).
Proof.
  intros Hok Hfresh. rewrite create_announcement_validated by done.
  unfold insert_one. by rewrite Hfresh.
Qed.

(** C2, at an empty [start_date]. The empty string is a supplied date
    string that the ISO parser rejects, but [create_announcement] tests
    [start_date] for truth, skips its validation and persists the record
    with [start_date] equal to [""]. *)
Theorem create_announcement_empty_start_date (db : Store E)
    (inserted_id : ObjectId) (message end_date : string)
    (user : gmap string string) :
  fromisoformat "" = false →
  fromisoformat end_date = true →
  has_id (announcements_collection db) inserted_id = false →
  let req := AnnouncementCreate.mk message (Some "") end_date in
  create_announcement db inserted_id req user
  = (Return (<["_id" := Some (str inserted_id)]> (announcement_data req)),
     set_announcements db
       (announcements_collection db
          ++ [mkDocument inserted_id (announcement_data req)]))
  ∧ get (announcement_data req) "start_date" = Some "".
Proof.
  intros Hempty Hend Hfresh req. split; [|done].
  apply create_announcement_accepts; [|done].
  unfold create_invalid, req. simpl.
  intros [(s & [= <-] & Hs & _)|[Hf|(s & [= <-] & Hs & _)]]; congruence.
Qed.

Lemma announcement_data_get (req : AnnouncementCreate.t) :
  get (announcement_data req) "start_date" = AnnouncementCreate.start_date req
  ∧ get (announcement_data req) "end_date"
    = Some (AnnouncementCreate.end_date req).
Proof.
  unfold announcement_data, get. split.
  - by rewrite lookup_insert_ne, lookup_insert_eq.
  - by rewrite lookup_insert_ne, lookup_insert_ne, lookup_singleton_eq.
Qed.



(** The condition of C1 on the stored end dates is kept by the three
    writing handlers, for a parser that rejects the empty string. *)
Lemma end_dates_nonempty_preserved (db : Store E) :
  fromisoformat "" = false →
  end_dates_nonempty db →
  (∀ inserted_id req user,
     end_dates_nonempty (create_announcement db inserted_id req user).2)
  ∧ (∀ announcement_id user,
       end_dates_nonempty (delete_announcement db announcement_id user).2)
  ∧ (∀ announcement_id req user,
       end_dates_nonempty (update_announcement db announcement_id req user).2).
Proof.
  intros Hempty Hdb. split; [|split].
  - intros inserted_id req user.
    destruct (classic_create req) as [Hbad|Hok].
    + by rewrite (proj2 (create_announcement_rejects db inserted_id req user Hbad)).
    + rewrite create_announcement_validated by done. unfold insert_one.
      destruct (has_id _ inserted_id); [done|].
      unfold end_dates_nonempty. simpl. apply Forall_app. split; [done|].
      constructor; [|done]. unfold doc_fields.
      rewrite (proj2 (announcement_data_get req)). intros [= Hed].
      apply Hok. right. left. by rewrite Hed.
  - intros announcement_id user. unfold delete_announcement.
    destruct (ObjectId_of_str announcement_id) as [oid|]; [|done].
    pose proof (delete_one_subset (announcements_collection db) oid) as Hsub.
    destruct (delete_one _ oid) as [n coll]. simpl in Hsub.
    assert (Forall (fun d : Document E => get (doc_fields d) "end_date" ≠ Some "")
              coll).
    { apply Forall_forall. intros d Hd.
      unfold end_dates_nonempty in Hdb. rewrite Forall_forall in Hdb. auto. }
    by destruct (Nat.eqb n 0).
  - intros announcement_id req user.
    destruct (update_announcement db announcement_id req user) as [r db'] eqn:Hu.
    destruct r as [msg|exn].
    + apply update_announcement_Return in Hu
        as (oid & l1 & d & l2 & _ & [Hbad _] & Hcoll & _ & _ & ->).
      unfold end_dates_nonempty in *. simpl. rewrite Hcoll in Hdb.
      apply Forall_app in Hdb as [H1 H2]. apply Forall_cons in H2 as [Hd H2].
      apply Forall_app. split; [done|]. constructor; [|done]. simpl.
      destruct (supplied_lookup req) as (_ & _ & Hle & _).
      unfold get. rewrite set_lookup, Hle.
      destruct (AnnouncementUpdate.end_date req) as [e|] eqn:He; simpl; [|done].
      intros [= ->]. apply Hbad. right. eauto.
    + by rewrite (update_announcement_Raise _ _ _ _ _ _ Hu).
Qed.

End Create.

(** * The handlers on concrete requests *)

Lemma get_active_announcements_window_witness :
  end_dates_nonempty Sample.db1
  ∧ get_active_announcements Sample.db1 "2025-01-05"
    = Return (with_str_id <$>
                List.filter (in_window "2025-01-05")
                  (announcements_collection Sample.db1)).
Proof.
  assert (H : end_dates_nonempty Sample.db1).
  { repeat constructor. discriminate. }
  split; [exact H|].
  exact (proj1 (@get_active_announcements_window Sample.externals
                  Sample.db1 "2025-01-05" H)).
Defined.

Lemma login_unauthorized_uniform_witness :
  find_one (teachers_collection Sample.db1) "bob" = None
  ∧ @login Sample.externals Sample.db1 "bob" "wonderland" = Raise invalid_login.
Proof.
  assert (H : find_one (teachers_collection Sample.db1) "bob" = None)
    by reflexivity.
  split; [exact H|].
  exact (proj1 (@login_unauthorized_uniform Sample.externals
                  Sample.db1 "bob" "wonderland") H).
Defined.

Lemma get_current_user_gate_witness :
  "Bearer alice" ≠ ""
  ∧ Sample.alice ∈ teachers_collection Sample.db1
  ∧ Teacher._id Sample.alice = replace "Bearer alice" "Bearer " ""
  ∧ NoDup (Teacher._id <$> teachers_collection Sample.db1)
  ∧ @get_current_user Sample.externals Sample.db1 (Some "Bearer alice")
    = Return (identity Sample.alice).
Proof.
  assert (H1 : "Bearer alice" ≠ "") by discriminate.
  assert (H2 : Sample.alice ∈ teachers_collection Sample.db1)
    by apply list_elem_of_here.
  assert (H3 : Teacher._id Sample.alice = replace "Bearer alice" "Bearer " "")
    by reflexivity.
  assert (H4 : NoDup (Teacher._id <$> teachers_collection Sample.db1)).
  { repeat constructor. apply not_elem_of_nil. }
  split; [exact H1|]. split; [exact H2|]. split; [exact H3|]. split; [exact H4|].
  pose proof (@get_current_user_gate Sample.externals Sample.db1
                (Some "Bearer alice")) as (_ & H & _).
  destruct (proj2 (H "Bearer alice" eq_refl H1) Sample.alice H2 H3)
    as (found & _ & _ & Hgate & Hsame).
  rewrite (Hsame H4) in Hgate. exact Hgate.
Defined.

(** C4. The header is present and empty, and a teacher in the collection
    has the empty string, which is what is left of the header, as [_id]:
    the gate fails with 401 "Not authenticated" and returns no identity. *)
Lemma get_current_user_empty_header_counterexample :
  Sample.nobody ∈ teachers_collection Sample.db2
  ∧ Teacher._id Sample.nobody = replace "" "Bearer " ""
  ∧ @get_current_user Sample.externals Sample.db2 (Some "")
    = Raise (mkHTTPException HTTP_401_UNAUTHORIZED "Not authenticated")
  ∧ ¬ ∃ teacher,
        @get_current_user Sample.externals Sample.db2 (Some "")
        = Return (identity teacher).
Proof.
  split; [apply list_elem_of_further, list_elem_of_here|].
  split; [reflexivity|]. split; [reflexivity|].
  intros (teacher & H). discriminate H.
Qed.

Lemma get_current_user_replaces_bearer_witness :
  "alice" ≠ ""
  ∧ Sample.alice ∈ teachers_collection Sample.db1
  ∧ Teacher._id Sample.alice = replace "alice" "Bearer " ""
  ∧ NoDup (Teacher._id <$> teachers_collection Sample.db1)
  ∧ @get_current_user Sample.externals Sample.db1 (Some "alice")
    = Return (identity Sample.alice).
Proof.
  assert (H1 : "alice" ≠ "") by discriminate.
  assert (H2 : Sample.alice ∈ teachers_collection Sample.db1)
    by apply list_elem_of_here.
  assert (H3 : Teacher._id Sample.alice = replace "alice" "Bearer " "")
    by reflexivity.
  assert (H4 : NoDup (Teacher._id <$> teachers_collection Sample.db1)).
  { repeat constructor. apply not_elem_of_nil. }
  split; [exact H1|]. split; [exact H2|]. split; [exact H3|]. split; [exact H4|].
  destruct (proj1 (proj2 (@get_current_user_replaces_bearer Sample.externals
                            Sample.db1 "alice" H1)) Sample.alice H2 H3)
    as (found & _ & _ & Hgate & Hsame).
  rewrite (Hsame H4) in Hgate. exact Hgate.
Defined.

Lemma responses_public_fields_witness :
  (∃ username password,
     @login Sample.externals Sample.db1 username password
     = Return (identity Sample.alice))
  ∧ dom (identity Sample.alice) = public_keys
  ∧ identity Sample.alice !! "password" = None.
Proof.
  assert (H : ∃ username password,
            @login Sample.externals Sample.db1 username password
            = Return (identity Sample.alice)).
  { exists "alice", "wonderland". reflexivity. }
  split; [exact H|].
  pose proof (proj1 (@responses_public_fields Sample.externals Sample.db1)
                (identity Sample.alice) (or_introl H)) as (Hdom & Hpw & _).
  exact (conj Hdom Hpw).
Defined.

Lemma delete_announcement_removes_witness :
  unique_ids Sample.db1
  ∧ (∀ a b : @ObjectId Sample.externals, str a = str b → a = b)
  ∧ has_id (announcements_collection Sample.db1) Sample.oid1 = true
  ∧ is_ok (@delete_announcement Sample.externals Sample.db1 Sample.oid1 ∅).1 = true
  ∧ fails_with
      (delete_announcement
         (@delete_announcement Sample.externals Sample.db1 Sample.oid1 ∅).2
         Sample.oid1 ∅).1
      HTTP_404_NOT_FOUND.
Proof.
  assert (H1 : unique_ids Sample.db1).
  { repeat constructor. apply not_elem_of_nil. }
  assert (H2 : ∀ a b : @ObjectId Sample.externals, str a = str b → a = b)
    by (intros a b H; exact H).
  assert (H3 : has_id (announcements_collection Sample.db1) Sample.oid1 = true)
    by reflexivity.
  split; [exact H1|]. split; [exact H2|]. split; [exact H3|].
  pose proof (@delete_announcement_removes Sample.externals Sample.db1
                Sample.oid1 ∅ H1 H2) as [_ H].
  destruct (H Sample.oid1 eq_refl H3) as (Hok & _ & _ & _ & _ & H404 & _).
  exact (conj Hok H404).
Defined.

Lemma update_announcement_frame_witness :
  @update_announcement Sample.externals Sample.db1 Sample.oid1
    (Sample.update_end_date "2025-02-01") ∅
  = (Return "Announcement updated successfully",
     (@update_announcement Sample.externals Sample.db1 Sample.oid1
        (Sample.update_end_date "2025-02-01") ∅).2)
  ∧ ∃ d d' : Document Sample.externals,
      doc_fields d' !! "end_date" = Some (Some "2025-02-01")
      ∧ doc_fields d' !! "start_date" = doc_fields d !! "start_date"
      ∧ doc_fields d' !! "message" = doc_fields d !! "message".
Proof.
  assert (H : @update_announcement Sample.externals Sample.db1 Sample.oid1
                (Sample.update_end_date "2025-02-01") ∅
              = (Return "Announcement updated successfully",
                 (@update_announcement Sample.externals Sample.db1 Sample.oid1
                    (Sample.update_end_date "2025-02-01") ∅).2))
    by reflexivity.
  split; [exact H|].
  destruct (@update_announcement_frame Sample.externals _ _ _ _ _ _ H)
    as (oid & l1 & d & d' & l2 & _ & _ & _ & _ & _ & _ & _
        & _ & _ & He & Hm & Hs & _ & _).
  exists d, d'.
  exact (conj (proj2 (He "2025-02-01" eq_refl)) (conj (Hs eq_refl) (Hm eq_refl))).
Defined.

Lemma update_announcement_failures_witness :
  no_field Sample.empty_update
  ∧ fails_with
      (@update_announcement Sample.externals Sample.db1 Sample.oid2 Sample.empty_update ∅).1
      HTTP_400_BAD_REQUEST.
Proof.
  assert (H : no_field Sample.empty_update) by (by repeat split).
  split; [exact H|].
  pose proof (@update_announcement_failures Sample.externals Sample.db1
                Sample.oid2 Sample.empty_update ∅) as (_ & _ & Hnone & _).
  exact (Hnone H).
Defined.

(** C6. The identifier is well formed and no record has it, but the request
    supplies no field: the update fails with 400 "No fields to update",
    not with 404. *)
Lemma update_announcement_not_found_counterexample :
  @ObjectId_of_str Sample.externals Sample.oid2 = Some Sample.oid2
  ∧ has_id (announcements_collection Sample.db1) Sample.oid2 = false
  ∧ (@update_announcement Sample.externals Sample.db1 Sample.oid2 Sample.empty_update ∅).1
    = Raise (mkHTTPException HTTP_400_BAD_REQUEST "No fields to update")
  ∧ ¬ fails_with
        (@update_announcement Sample.externals Sample.db1 Sample.oid2
           Sample.empty_update ∅).1
        HTTP_404_NOT_FOUND.
Proof.
  split; [reflexivity|]. split; [reflexivity|].
  assert (H : (@update_announcement Sample.externals Sample.db1 Sample.oid2
                 Sample.empty_update ∅).1
              = Raise (mkHTTPException HTTP_400_BAD_REQUEST "No fields to update"))
    by reflexivity.
  split; [exact H|]. rewrite H. intros [msg Hmsg]. discriminate Hmsg.
Qed.

Lemma create_announcement_empty_start_date_witness :
  @fromisoformat Sample.externals "" = false
  ∧ @fromisoformat Sample.externals "2025-01-10" = true
  ∧ has_id (announcements_collection Sample.db0) Sample.oid1 = false
  ∧ (@create_announcement Sample.externals Sample.db0 Sample.oid1
       (AnnouncementCreate.mk "Office closed" (Some "") "2025-01-10") ∅).2
    = set_announcements Sample.db0
        [@mkDocument Sample.externals Sample.oid1
           (announcement_data
              (AnnouncementCreate.mk "Office closed" (Some "") "2025-01-10"))].
Proof.
  assert (H1 : @fromisoformat Sample.externals "" = false) by reflexivity.
  assert (H2 : @fromisoformat Sample.externals "2025-01-10" = true) by reflexivity.
  assert (H3 : has_id (announcements_collection Sample.db0) Sample.oid1 = false)
    by reflexivity.
  split; [exact H1|]. split; [exact H2|]. split; [exact H3|].
  pose proof (@create_announcement_empty_start_date Sample.externals Sample.db0
                Sample.oid1 "Office closed" "2025-01-10" ∅ H1 H2 H3) as [H _].
  exact (f_equal snd H).
Defined.



(** * Further properties of the routers *)

Lemma py_le_trans (a b c : string) :
  py_le a b = true → py_le b c = true → py_le a c = true.
Proof.
  unfold py_le. intros H1%Is_true_true H2%Is_true_true. apply Is_true_true.
  change (String.le a c). by trans b.
Qed.

Lemma py_lt_le_trans (a b c : string) :
  py_lt a b = true → py_le b c = true → py_lt a c = true.
Proof.
  rewrite !py_lt_not_ge. unfold py_ge. intros Hab Hbc.
  destruct (py_le c a) eqn:Hca; [|done].
  by rewrite (py_le_trans b c a Hbc Hca) in Hab.
Qed.

Lemma py_le_lt_trans (a b c : string) :
  py_le a b = true → py_lt b c = true → py_lt a c = true.
Proof.
  rewrite !py_lt_not_ge. unfold py_ge. intros Hab Hbc.
  destruct (py_le c a) eqn:Hca; [|done].
  by rewrite (py_le_trans c a b Hca Hab) in Hbc.
Qed.

Section Listing.
Context {E : Externals}.

Lemma active_announcements_sublist (today : string) (coll : list (Document E)) :
  active_announcements today coll `sublist_of` (with_str_id <$> coll).
Proof.
  induction coll as [|d coll IH]; simpl; [constructor|].
  destruct (is_active today d); by constructor.
Qed.

(** X1. List-all returns one record per stored document, in store order: the
    document's keys with [_id] set to the string form of its identifier.
    List-active returns, for any day, a sublist of that list. *)
Theorem get_active_sublist_of_all (db : Store E) (today : string)
    (user : gmap string string) :
  ∃ active all,
    get_active_announcements db today = Return active
    ∧ get_all_announcements db user = Return all
    ∧ active `sublist_of` all
    ∧ length all = length (announcements_collection db)
    ∧ ∀ i d, announcements_collection db !! i = Some d →
        ∃ r, all !! i = Some r
          ∧ r !! "_id" = Some (Some (str (doc_id d)))
          ∧ ∀ k, k ≠ "_id" → r !! k = doc_fields d !! k.
Proof.
  exists (active_announcements today (announcements_collection db)),
    (with_str_id <$> announcements_collection db).
  split; [done|]. split; [done|].
  split; [apply active_announcements_sublist|].
  split; [apply length_fmap|].
  intros i d Hi. exists (with_str_id d).
  rewrite list_lookup_fmap, Hi. split; [done|].
  split; [apply with_str_id_lookup|].
  intros k Hk. unfold with_str_id. by rewrite lookup_insert_ne.
Qed.

(** X2. The days on which a record is active form an interval: a record
    active on two days is active on every day between them. *)
Theorem is_active_convex (d : Document E) (t1 t2 t3 : string) :
  py_le t1 t2 = true → py_le t2 t3 = true →
  is_active t1 d = true → is_active t3 d = true →
  is_active t2 d = true.
Proof.
  unfold is_active, truthy_and. intros H12 H23.
  destruct (get (doc_fields d) "start_date") as [s|];
    destruct (get (doc_fields d) "end_date") as [e|];
    repeat match goal with
           | |- context [String.eqb ?x ""] => destruct (String.eqb x "")
           end;
    try done;
    repeat match goal with
           | |- context [py_gt ?x ?y] => destruct (py_gt x y) eqn:?
           | |- context [py_lt ?x ?y] => destruct (py_lt x y) eqn:?
           end;
    try done; intros _ _; unfold py_gt in *;
    repeat match goal with
           | H : py_lt t2 ?s = true, H' : py_lt t1 ?s = false |- _ =>
               rewrite (py_le_lt_trans t1 t2 s H12 H) in H'
           | H : py_lt ?e t2 = true, H' : py_lt ?e t3 = false |- _ =>
               rewrite (py_lt_le_trans e t2 t3 H H23) in H'
           end;
    done.
Qed.

(** X3. A record that has expired stays expired, and a record that has not
    started was not started on any earlier day. *)
Theorem is_active_expired_later (d : Document E) (today later : string) :
  py_le today later = true →
  (∀ e, get (doc_fields d) "end_date" = Some e → e ≠ "" →
     py_lt e today = true → is_active later d = false)
  ∧ (∀ s, get (doc_fields d) "start_date" = Some s → s ≠ "" →
       py_gt s later = true → is_active today d = false).
Proof.
  intros Hle. unfold is_active, truthy_and. split.
  - intros e -> He Hlt.
    rewrite (eqb_empty_false e He), (py_lt_le_trans e today later Hlt Hle).
    by destruct (get (doc_fields d) "start_date") as [s|];
      [destruct (String.eqb s ""); [|destruct (py_gt s later)]|].
  - intros s -> Hs Hgt. unfold py_gt in *.
    rewrite (eqb_empty_false s Hs), (py_le_lt_trans today later s Hle Hgt).
    by destruct (get (doc_fields d) "end_date") as [e|];
      [destruct (String.eqb e ""); [|destruct (py_lt e today)]|].
Qed.

End Listing.

Section Writers.
Context {E : Externals}.

Lemma create_announcement_duplicate (db : Store E) inserted_id req user :
  ¬ create_invalid req →
  has_id (announcements_collection db) inserted_id = true →
  create_announcement db inserted_id req user
  = (Raise (mkHTTPException HTTP_500_INTERNAL_SERVER_ERROR
              "Failed to create announcement"), db).
Proof.
  intros Hok Hdup. rewrite create_announcement_validated by done.
  unfold insert_one. by rewrite Hdup.
Qed.

Lemma create_announcement_Return (db db' : Store E) inserted_id req user r :
  create_announcement db inserted_id req user = (Return r, db') →
  ¬ create_invalid req
  ∧ has_id (announcements_collection db) inserted_id = false
  ∧ r = <["_id" := Some (str inserted_id)]> (announcement_data req)
  ∧ db' = set_announcements db
            (announcements_collection db
               ++ [mkDocument inserted_id (announcement_data req)]).
Proof.
  intros H. destruct (classic_create req) as [Hbad|Hok].
  - destruct (create_announcement_rejects db inserted_id req user Hbad)
      as [[msg Hmsg] _].
    rewrite H in Hmsg. discriminate Hmsg.
  - destruct (has_id (announcements_collection db) inserted_id) eqn:Hhas.
    + by rewrite create_announcement_duplicate in H.
    + rewrite create_announcement_accepts in H by done.
      injection H as <- <-. done.
Qed.

(** X5. What [create_announcement] does with a request. A non-empty
    [start_date] or an [end_date] that the ISO parser rejects, or non-empty
    dates with [start_date > end_date], fail with 400. A valid request
    fails with 500 when the generated identifier is already in use, and is
    otherwise appended to the collection and returned with [_id] set to the
    identifier's string. A failure leaves the store as it was. *)
Theorem create_announcement_outcomes (db : Store E) (inserted_id : ObjectId)
    (req : AnnouncementCreate.t) (user : gmap string string) :
  let r := (create_announcement db inserted_id req user).1 in
  let db' := (create_announcement db inserted_id req user).2 in
  (create_invalid req → fails_with r HTTP_400_BAD_REQUEST)
  ∧ (¬ create_invalid req →
     has_id (announcements_collection db) inserted_id = true →
     fails_with r HTTP_500_INTERNAL_SERVER_ERROR)
  ∧ (¬ create_invalid req →
     has_id (announcements_collection db) inserted_id = false →
     r = Return (<["_id" := Some (str inserted_id)]> (announcement_data req))
     ∧ db' = set_announcements db
               (announcements_collection db
                  ++ [mkDocument inserted_id (announcement_data req)]))
  ∧ (is_ok r = false → db' = db).
Proof.
  intros r db'. unfold r, db'. split; [|split; [|split]].
  - intros Hbad. by apply create_announcement_rejects.
  - intros Hok Hdup. rewrite create_announcement_duplicate by done. by eexists.
  - intros Hok Hfresh. by rewrite create_announcement_accepts.
  - destruct (classic_create req) as [Hbad|Hok].
    + intros _. by apply create_announcement_rejects.
    + destruct (has_id (announcements_collection db) inserted_id) eqn:Hhas.
      * by rewrite create_announcement_duplicate.
      * by rewrite create_announcement_accepts.
Qed.

(** X7. After a successful create, list-all returns what it returned before
    followed by the created record, and list-active returns what it
    returned before, followed by the created record when its window
    contains the day: [start_date] is [None], empty or [<= today], and
    [end_date] is empty or [>= today]. *)
Theorem create_announcement_then_list (db db' : Store E) (inserted_id : ObjectId)
    (req : AnnouncementCreate.t) (user : gmap string string)
    (r : gmap string (option string)) (today : string) :
  create_announcement db inserted_id req user = (Return r, db') →
  ∃ all active,
    get_all_announcements db user = Return all
    ∧ get_active_announcements db today = Return active
    ∧ get_all_announcements db' user = Return (all ++ [r])
    ∧ get_active_announcements db' today
      = Return (active ++
                  if match AnnouncementCreate.start_date req with
                     | Some s => String.eqb s "" || py_le s today
                     | None => true
                     end
                     && (String.eqb (AnnouncementCreate.end_date req) ""
                         || py_ge (AnnouncementCreate.end_date req) today)
                  then [r] else []).
Proof.
  intros (Hok & Hfresh & -> & ->)%create_announcement_Return.
  exists (with_str_id <$> announcements_collection db),
    (active_announcements today (announcements_collection db)).
  split; [done|]. split; [done|]. split.
  - unfold get_all_announcements. simpl. by rewrite map_app.
  - unfold get_active_announcements. simpl. f_equal.
    rewrite !active_announcements_filter, List.filter_app, fmap_app. f_equal.
    simpl. unfold is_active at 1. unfold doc_fields at 1 2.
    destruct (announcement_data_get req) as [-> ->].
    unfold truthy_and.
    destruct (AnnouncementCreate.start_date req) as [s|];
      rewrite ?py_gt_not_le, ?py_lt_not_ge;
      [destruct (String.eqb s ""); [|destruct (py_le s today)]|];
      destruct (String.eqb (AnnouncementCreate.end_date req) "");
      try destruct (py_ge (AnnouncementCreate.end_date req) today); done.
Qed.

(** X8. Deleting the record a create returned, by the [_id] it was returned
    with, gives back the store from before the create. *)
Theorem create_then_delete (db db' : Store E) (inserted_id : ObjectId)
    (req : AnnouncementCreate.t) (user : gmap string string)
    (r : gmap string (option string)) :
  ObjectId_of_str (str inserted_id) = Some inserted_id →
  create_announcement db inserted_id req user = (Return r, db') →
  r !! "_id" = Some (Some (str inserted_id))
  ∧ delete_announcement db' (str inserted_id) user
    = (Return "Announcement deleted successfully", db).
Proof.
  intros Hid (Hok & Hfresh & -> & ->)%create_announcement_Return. split.
  - by rewrite lookup_insert_eq.
  - rewrite (delete_announcement_found _ _ _ inserted_id
               (announcements_collection db)
               (mkDocument inserted_id (announcement_data req)) [])
      by done.
    simpl. rewrite app_nil_r. by destruct db.
Qed.

End Writers.

Section StoreInvariants.
Context {E : Externals}.

Lemma delete_one_sublist (coll : list (Document E)) oid :
  (delete_one coll oid).2 `sublist_of` coll.
Proof.
  induction coll as [|x coll IH]; simpl; [constructor|].
  destruct (bool_decide (doc_id x = oid)); simpl.
  - by apply sublist_cons.
  - destruct (delete_one coll oid) as [n rest]. by apply sublist_skip.
Qed.

Lemma update_one_ids (coll : list (Document E)) oid update_data :
  doc_id <$> (update_one coll oid update_data).2 = doc_id <$> coll.
Proof.
  induction coll as [|x coll IH]; [done|]. simpl.
  destruct (bool_decide (doc_id x = oid)); simpl; [done|].
  destruct (update_one coll oid update_data) as [n rest]. simpl in *.
  f_equal. exact IH.
Qed.

Lemma update_announcement_ids (db : Store E) announcement_id req user :
  doc_id <$> announcements_collection
               (update_announcement db announcement_id req user).2
  = doc_id <$> announcements_collection db.
Proof.
  unfold update_announcement.
  destruct (ObjectId_of_str announcement_id) as [oid|]; [|done].
  destruct (build_update_data req) as [u|exn]; [|done].
  pose proof (update_one_ids (announcements_collection db) oid u) as H.
  destruct (update_one _ oid u) as [n coll]. by destruct (Nat.eqb n 0).
Qed.

(** X12. The three writing handlers keep the identifiers of the collection
    pairwise different; an update changes neither the identifiers nor
    their order. *)
Theorem unique_ids_preserved (db : Store E) :
  unique_ids db →
  (∀ inserted_id req user,
     unique_ids (create_announcement db inserted_id req user).2)
  ∧ (∀ announcement_id req user,
       unique_ids (update_announcement db announcement_id req user).2
       ∧ doc_id <$> announcements_collection
                      (update_announcement db announcement_id req user).2
         = doc_id <$> announcements_collection db)
  ∧ (∀ announcement_id user,
       unique_ids (delete_announcement db announcement_id user).2).
Proof.
  unfold unique_ids. intros Hdb. split; [|split].
  - intros inserted_id req user.
    destruct (classic_create req) as [Hbad|Hok].
    + by rewrite (proj2 (create_announcement_rejects db inserted_id req user Hbad)).
    + rewrite create_announcement_validated by done. unfold insert_one.
      destruct (has_id _ inserted_id) eqn:Hhas; [done|]. simpl.
      rewrite fmap_app. apply NoDup_app. split; [done|]. split.
      * intros x (d & -> & Hd)%list_elem_of_fmap [Heq|[]%elem_of_nil]%elem_of_cons.
        rewrite has_id_false in Hhas. by apply (Hhas d Hd).
      * apply NoDup_singleton.
  - intros announcement_id req user.
    by rewrite update_announcement_ids.
  - intros announcement_id user. unfold delete_announcement.
    destruct (ObjectId_of_str announcement_id) as [oid|]; [|done].
    pose proof (delete_one_sublist (announcements_collection db) oid) as Hsub.
    destruct (delete_one _ oid) as [n coll]. simpl in Hsub.
    assert (NoDup (doc_id <$> coll))
      by exact (sublist_NoDup _ _ Hdb (fmap_sublist doc_id _ _ Hsub)).
    by destruct (Nat.eqb n 0).
Qed.

(** X9. What [delete_announcement] does with an identifier, whether or not
    identifiers are unique. Malformed: 400. Well formed without a record:
    404. Otherwise the first record with the identifier is removed and the
    rest of the collection keeps its order. A failure leaves the store as
    it was. *)
Theorem delete_announcement_outcomes (db : Store E) (announcement_id : string)
    (user : gmap string string) :
  let r := (delete_announcement db announcement_id user).1 in
  let db' := (delete_announcement db announcement_id user).2 in
  (ObjectId_of_str announcement_id = None → fails_with r HTTP_400_BAD_REQUEST)
  ∧ (∀ oid, ObjectId_of_str announcement_id = Some oid →
       (has_id (announcements_collection db) oid = false →
          fails_with r HTTP_404_NOT_FOUND)
       ∧ (has_id (announcements_collection db) oid = true →
            is_ok r = true
            ∧ ∃ l1 d l2,
                announcements_collection db = l1 ++ d :: l2
                ∧ doc_id d = oid ∧ has_id l1 oid = false
                ∧ announcements_collection db' = l1 ++ l2))
  ∧ (is_ok r = false → db' = db)
  ∧ teachers_collection db' = teachers_collection db.
Proof.
  intros r db'. unfold r, db'. split; [|split; [|split]].
  - intros Hid. unfold delete_announcement. rewrite Hid. by eexists.
  - intros oid Hid. split; intros Hhas.
    + rewrite (delete_announcement_missing _ _ _ oid) by done. by eexists.
    + destruct (has_id_split _ _ Hhas) as (l1 & d & l2 & Hcoll & Hd & Hl1).
      rewrite (delete_announcement_found _ _ _ oid l1 d l2) by done.
      split; [done|]. by exists l1, d, l2.
  - destruct (ObjectId_of_str announcement_id) as [oid|] eqn:Hid;
      [|unfold delete_announcement; by rewrite Hid].
    destruct (has_id (announcements_collection db) oid) eqn:Hhas.
    + destruct (has_id_split _ _ Hhas) as (l1 & d & l2 & Hcoll & Hd & Hl1).
      by rewrite (delete_announcement_found _ _ _ oid l1 d l2).
    + by rewrite (delete_announcement_missing _ _ _ oid).
  - unfold delete_announcement.
    destruct (ObjectId_of_str announcement_id) as [oid|]; [|done].
    destruct (delete_one _ oid) as [n coll]. by destruct (Nat.eqb n 0).
Qed.

(** X10. [$set] is idempotent: repeating a successful update succeeds again
    and leaves the store as the first one left it. *)
Theorem update_announcement_idempotent (db db' : Store E)
    (announcement_id : string) (req : AnnouncementUpdate.t)
    (user : gmap string string) (msg : string) :
  update_announcement db announcement_id req user = (Return msg, db') →
  update_announcement db' announcement_id req user = (Return msg, db').
Proof.
  intros H. pose proof H as H'.
  apply update_announcement_Return in H'
    as (oid & l1 & d & l2 & Hid & Hok & Hcoll & Hd & Hl1 & ->).
  rewrite (update_announcement_found _ _ _ _ oid l1 d l2) in H by done.
  injection H as <-.
  rewrite (update_announcement_found _ _ _ _ oid l1
             (mkDocument oid (supplied req ∪ doc_fields d)) l2) by done.
  simpl. by rewrite (assoc_L (∪)), (idemp_L (∪)).
Qed.

(** X13. The announcement handlers never touch the teachers: after any of
    them login, the session check and the gate answer as before. *)
Theorem teachers_never_modified (db : Store E) :
  ∀ db' : Store E,
    (∃ inserted_id req user,
       db' = (create_announcement db inserted_id req user).2)
    ∨ (∃ announcement_id req user,
         db' = (update_announcement db announcement_id req user).2)
    ∨ (∃ announcement_id user,
         db' = (delete_announcement db announcement_id user).2) →
    teachers_collection db' = teachers_collection db
    ∧ (∀ username password,
         login db' username password = login db username password)
    ∧ (∀ username, check_session db' username = check_session db username)
    ∧ (∀ authorization,
         get_current_user db' authorization = get_current_user db authorization).
Proof.
  intros db' H.
  assert (Ht : teachers_collection db' = teachers_collection db).
  { destruct H as [(i & req & u & ->)|[(i & req & u & ->)|(i & u & ->)]].
    - unfold create_announcement.
      destruct (_ ;;; _); [|done]. by destruct (insert_one _ _ _).
    - unfold update_announcement.
      destruct (ObjectId_of_str i) as [oid|]; [|done].
      destruct (build_update_data req) as [upd|exn]; [|done].
      destruct (update_one _ oid upd) as [n coll]. by destruct (Nat.eqb n 0).
    - unfold delete_announcement.
      destruct (ObjectId_of_str i) as [oid|]; [|done].
      destruct (delete_one _ oid) as [n coll]. by destruct (Nat.eqb n 0). }
  split; [done|].
  unfold login, check_session, get_current_user. by rewrite Ht.
Qed.

End StoreInvariants.

Section Sessions.
Context {E : Externals}.

Lemma replace_bearer_prefix (h : string) :
  replace ("Bearer " +:+ h) "Bearer " "" = replace h "Bearer " "".
Proof. unfold replace. by rewrite replace_from_match. Qed.

(** X14. The scheme is optional: a non-empty header is answered the same with
    and without a leading ["Bearer "]. *)
Theorem get_current_user_scheme_optional (db : Store E) (h : string) :
  h ≠ "" →
  get_current_user db (Some ("Bearer " +:+ h)) = get_current_user db (Some h).
Proof.
  intros Hh.
  rewrite (get_current_user_nonempty db ("Bearer " +:+ h)) by done.
  rewrite (get_current_user_nonempty db h Hh).
  by rewrite replace_bearer_prefix.
Qed.

(** X15. The gate asks for no more than the session check does: for a
    non-empty username without ["Bearer "] in it, the gate accepts the bare
    username as header exactly when the session check finds it, with the
    same response. *)
Theorem get_current_user_iff_check_session (db : Store E) (username : string) :
  username ≠ "" → ¬ occurs "Bearer " username →
  (∀ r, get_current_user db (Some username) = Return r
        ↔ check_session db username = Return r)
  ∧ is_ok (get_current_user db (Some username))
    = is_ok (check_session db username).
Proof.
  intros Hne Hno.
  rewrite (get_current_user_nonempty db username Hne).
  rewrite (replace_bearer_none username Hno). unfold check_session.
  destruct (find_one (teachers_collection db) username) as [t|]; [|done].
  done.
Qed.

(** X16. A username that logs in is a valid session and a valid token: after
    a successful login the session check returns the same response, and so
    does the gate for the header ["Bearer " + username] when the username
    does not contain ["Bearer "]. *)
Theorem login_then_authenticated (db : Store E) (username password : string)
    (r : gmap string string) :
  login db username password = Return r →
  check_session db username = Return r
  ∧ (¬ occurs "Bearer " username →
     get_current_user db (Some ("Bearer " +:+ username)) = Return r).
Proof.
  unfold login, check_session.
  destruct (find_one (teachers_collection db) username) as [t|] eqn:Ht; [|done].
  destruct (verify_password _ password); [|done]. simpl.
  intros [= <-]. split; [done|]. intros Hno.
  rewrite (get_current_user_nonempty db ("Bearer " +:+ username)) by done.
  by rewrite (replace_bearer_scheme username Hno), Ht.
Qed.

(** X11. An update that moves the end date before the day takes the record
    out of list-active for that day (identifiers unique, [str] injective). *)
Theorem update_end_date_expires (db db' : Store E) (announcement_id : string)
    (req : AnnouncementUpdate.t) (user : gmap string string) (msg : string)
    (e today : string) :
  unique_ids db →
  (∀ a b : ObjectId, str a = str b → a = b) →
  AnnouncementUpdate.end_date req = Some e → e ≠ "" →
  py_lt e today = true →
  update_announcement db announcement_id req user = (Return msg, db') →
  ∃ oid active,
    ObjectId_of_str announcement_id = Some oid
    ∧ get_active_announcements db' today = Return active
    ∧ ∀ r, r ∈ active → r !! "_id" ≠ Some (Some (str oid)).
Proof.
  intros Huniq Hstr Hreq He Hlt
    (oid & l1 & d & l2 & Hid & Hok & Hcoll & Hd & Hl1 & ->)
    %update_announcement_Return.
  exists oid, (active_announcements today
                 (l1 ++ mkDocument oid (supplied req ∪ doc_fields d) :: l2)).
  split; [done|]. split; [done|].
  intros r Hr Hrid. rewrite active_announcements_filter in Hr.
  apply list_elem_of_fmap in Hr as (x & -> & Hx).
  apply list_elem_of_In, filter_In in Hx as [Hx Hact].
  apply list_elem_of_In in Hx.
  rewrite with_str_id_lookup in Hrid. injection Hrid as Hrid.
  apply Hstr in Hrid.
  assert (Hrest : has_id (l1 ++ l2) oid = false).
  { rewrite <- Hd. apply unique_ids_rest.
    unfold unique_ids in Huniq. by rewrite Hcoll in Huniq. }
  rewrite has_id_false in Hrest.
  apply elem_of_app in Hx as [Hx|[->|Hx]%elem_of_cons].
  - apply (Hrest x); [apply elem_of_app; by left|done].
  - unfold is_active, truthy_and in Hact. simpl in Hact.
    destruct (supplied_lookup req) as (_ & _ & Hle & _).
    unfold get in Hact. rewrite !set_lookup, Hle, Hreq in Hact. simpl in Hact.
    rewrite (eqb_empty_false e He), Hlt in Hact.
    by destruct (match supplied req !! "start_date" with
                 | Some v => Some v
                 | None => doc_fields d !! "start_date"
                 end) as [[s|]|];
      simpl in Hact; try destruct (String.eqb s ""); try destruct (py_gt s today).
  - apply (Hrest x); [apply elem_of_app; by right|done].
Qed.

End Sessions.

(** ** On concrete requests *)

Lemma length_app_str (a b : string) :
  String.length (a +:+ b) = String.length a + String.length b.
Proof.
  induction a as [|c a IH]; [done|]. rewrite app_cons. simpl. by rewrite IH.
Qed.

Lemma not_occurs_short (old s : string) :
  String.length s < String.length old → ¬ occurs old s.
Proof.
  intros Hlen (a & b & ->). rewrite !length_app_str in Hlen. lia.
Qed.

Lemma get_active_sublist_of_all_witness :
  announcements_collection Sample.db1 !! 0
  = Some (@mkDocument Sample.externals Sample.oid1 exam_week)
  ∧ ∃ all r,
      @get_all_announcements Sample.externals Sample.db1 ∅ = Return all
      ∧ all !! 0 = Some r
      ∧ r !! "_id" = Some (Some Sample.oid1).
Proof.
  split; [reflexivity|].
  destruct (@get_active_sublist_of_all Sample.externals Sample.db1
              "2025-01-05" ∅) as (active & all & _ & Hall & _ & _ & Hi).
  destruct (Hi 0 (@mkDocument Sample.externals Sample.oid1 exam_week) eq_refl)
    as (r & Hr & Hid & _).
  exists all, r. exact (conj Hall (conj Hr Hid)).
Defined.

Lemma is_active_convex_witness :
  py_le "2025-01-01" "2025-01-05" = true
  ∧ py_le "2025-01-05" "2025-01-10" = true
  ∧ is_active "2025-01-05" (@mkDocument Sample.externals Sample.oid1 exam_week)
    = true.
Proof.
  split; [reflexivity|]. split; [reflexivity|].
  exact (@is_active_convex Sample.externals
           (@mkDocument Sample.externals Sample.oid1 exam_week)
           "2025-01-01" "2025-01-05" "2025-01-10"
           eq_refl eq_refl eq_refl eq_refl).
Defined.

Lemma is_active_expired_later_witness :
  py_le "2025-01-11" "2025-02-01" = true
  ∧ py_lt "2025-01-10" "2025-01-11" = true
  ∧ is_active "2025-02-01" (@mkDocument Sample.externals Sample.oid1 exam_week)
    = false.
Proof.
  split; [reflexivity|]. split; [reflexivity|].
  refine (proj1 (@is_active_expired_later Sample.externals
                   (@mkDocument Sample.externals Sample.oid1 exam_week)
                   "2025-01-11" "2025-02-01" eq_refl)
            "2025-01-10" eq_refl _ eq_refl).
  discriminate.
Defined.

Lemma create_announcement_outcomes_witness :
  @create_invalid Sample.externals
    (AnnouncementCreate.mk "Exam week" (Some "2025-02-01") "2025-01-10")
  ∧ fails_with
      (@create_announcement Sample.externals Sample.db0 Sample.oid1
         (AnnouncementCreate.mk "Exam week" (Some "2025-02-01") "2025-01-10") ∅).1
      HTTP_400_BAD_REQUEST.
Proof.
  assert (H : @create_invalid Sample.externals
                (AnnouncementCreate.mk "Exam week" (Some "2025-02-01")
                   "2025-01-10")).
  { right. right. exists "2025-02-01".
    split; [reflexivity|]. split; [discriminate|].
    split; [discriminate|reflexivity]. }
  split; [exact H|].
  exact (proj1 (@create_announcement_outcomes Sample.externals Sample.db0
                  Sample.oid1 _ ∅) H).
Defined.

Lemma create_announcement_then_list_witness :
  @create_announcement Sample.externals Sample.db0 Sample.oid1
    Sample.exam_week_request ∅
  = (Return (<["_id" := Some Sample.oid1]>
               (announcement_data Sample.exam_week_request)),
     (@create_announcement Sample.externals Sample.db0 Sample.oid1
        Sample.exam_week_request ∅).2)
  ∧ ∃ all,
      get_all_announcements
        (@create_announcement Sample.externals Sample.db0 Sample.oid1
           Sample.exam_week_request ∅).2 ∅
      = Return (all ++ [<["_id" := Some Sample.oid1]>
                          (announcement_data Sample.exam_week_request)]).
Proof.
  assert (H : @create_announcement Sample.externals Sample.db0 Sample.oid1
                Sample.exam_week_request ∅
              = (Return (<["_id" := Some Sample.oid1]>
                           (announcement_data Sample.exam_week_request)),
                 (@create_announcement Sample.externals Sample.db0 Sample.oid1
                    Sample.exam_week_request ∅).2)) by reflexivity.
  split; [exact H|].
  destruct (@create_announcement_then_list Sample.externals _ _ _ _ ∅ _
              "2025-01-05" H) as (all & active & _ & _ & Hall & _).
  exists all. exact Hall.
Defined.

Lemma create_then_delete_witness :
  @ObjectId_of_str Sample.externals (@str Sample.externals Sample.oid1)
  = Some Sample.oid1
  ∧ delete_announcement
      (@create_announcement Sample.externals Sample.db0 Sample.oid1
         Sample.exam_week_request ∅).2
      Sample.oid1 ∅
    = (Return "Announcement deleted successfully", Sample.db0).
Proof.
  assert (H1 : @ObjectId_of_str Sample.externals
                 (@str Sample.externals Sample.oid1)
               = Some Sample.oid1) by reflexivity.
  assert (H2 : @create_announcement Sample.externals Sample.db0 Sample.oid1
                 Sample.exam_week_request ∅
               = (Return (<["_id" := Some Sample.oid1]>
                            (announcement_data Sample.exam_week_request)),
                  (@create_announcement Sample.externals Sample.db0 Sample.oid1
                     Sample.exam_week_request ∅).2)) by reflexivity.
  split; [exact H1|].
  exact (proj2 (@create_then_delete Sample.externals _ _ Sample.oid1 _ ∅ _ H1 H2)).
Defined.

Lemma unique_ids_preserved_witness :
  unique_ids Sample.db1
  ∧ unique_ids
      (@create_announcement Sample.externals Sample.db1 Sample.oid2
         Sample.exam_week_request ∅).2.
Proof.
  assert (H : unique_ids Sample.db1).
  { repeat constructor. apply not_elem_of_nil. }
  split; [exact H|].
  exact (proj1 (@unique_ids_preserved Sample.externals Sample.db1 H)
           Sample.oid2 Sample.exam_week_request ∅).
Defined.

Lemma delete_announcement_outcomes_witness :
  @ObjectId_of_str Sample.externals Sample.oid2 = Some Sample.oid2
  ∧ has_id (announcements_collection Sample.db1) Sample.oid2 = false
  ∧ fails_with (@delete_announcement Sample.externals Sample.db1 Sample.oid2 ∅).1
      HTTP_404_NOT_FOUND.
Proof.
  split; [reflexivity|]. split; [reflexivity|].
  pose proof (@delete_announcement_outcomes Sample.externals Sample.db1
                Sample.oid2 ∅) as (_ & H & _).
  exact (proj1 (H Sample.oid2 eq_refl) eq_refl).
Defined.

Lemma update_announcement_idempotent_witness :
  let once :=
    @update_announcement Sample.externals Sample.db1 Sample.oid1
      (Sample.update_end_date "2025-02-01") ∅ in
  once = (Return "Announcement updated successfully", once.2)
  ∧ update_announcement once.2 Sample.oid1 (Sample.update_end_date "2025-02-01") ∅
    = (Return "Announcement updated successfully", once.2).
Proof.
  intros once.
  assert (H : once = (Return "Announcement updated successfully", once.2))
    by reflexivity.
  split; [exact H|].
  exact (@update_announcement_idempotent Sample.externals _ _ _ _ _ _ H).
Defined.

Lemma teachers_never_modified_witness :
  login (@delete_announcement Sample.externals Sample.db1 Sample.oid1 ∅).2
    "alice" "wonderland"
  = login Sample.db1 "alice" "wonderland".
Proof.
  refine (proj1 (proj2 (@teachers_never_modified Sample.externals Sample.db1
                          (@delete_announcement Sample.externals Sample.db1
                             Sample.oid1 ∅).2 _)) "alice" "wonderland").
  right. right. exists Sample.oid1, ∅. reflexivity.
Defined.

Lemma get_current_user_scheme_optional_witness :
  "alice" ≠ ""
  ∧ @get_current_user Sample.externals Sample.db1 (Some ("Bearer " +:+ "alice"))
    = get_current_user Sample.db1 (Some "alice").
Proof.
  assert (H : "alice" ≠ "") by discriminate.
  split; [exact H|].
  exact (@get_current_user_scheme_optional Sample.externals Sample.db1 "alice" H).
Defined.

Lemma get_current_user_iff_check_session_witness :
  "alice" ≠ "" ∧ ¬ occurs "Bearer " "alice"
  ∧ is_ok (@get_current_user Sample.externals Sample.db1 (Some "alice"))
    = is_ok (@check_session Sample.externals Sample.db1 "alice").
Proof.
  assert (H1 : "alice" ≠ "") by discriminate.
  assert (H2 : ¬ occurs "Bearer " "alice").
  { apply not_occurs_short. simpl. lia. }
  split; [exact H1|]. split; [exact H2|].
  exact (proj2 (@get_current_user_iff_check_session Sample.externals
                  Sample.db1 "alice" H1 H2)).
Defined.

Lemma login_then_authenticated_witness :
  @login Sample.externals Sample.db1 "alice" "wonderland"
  = Return (identity Sample.alice)
  ∧ @check_session Sample.externals Sample.db1 "alice"
    = Return (identity Sample.alice).
Proof.
  assert (H : @login Sample.externals Sample.db1 "alice" "wonderland"
              = Return (identity Sample.alice)) by reflexivity.
  split; [exact H|].
  exact (proj1 (@login_then_authenticated Sample.externals Sample.db1
                  "alice" "wonderland" _ H)).
Defined.

Lemma update_end_date_expires_witness :
  unique_ids Sample.db1
  ∧ py_lt "2024-12-01" "2025-01-05" = true
  ∧ ∃ oid active,
      @ObjectId_of_str Sample.externals Sample.oid1 = Some oid
      ∧ get_active_announcements
          (@update_announcement Sample.externals Sample.db1 Sample.oid1
             (Sample.update_end_date "2024-12-01") ∅).2 "2025-01-05"
        = Return active
      ∧ ∀ r, r ∈ active → r !! "_id" ≠ Some (Some (str oid)).
Proof.
  assert (H1 : unique_ids Sample.db1).
  { repeat constructor. apply not_elem_of_nil. }
  assert (H2 : ∀ a b : @ObjectId Sample.externals, str a = str b → a = b)
    by (intros a b H; exact H).
  assert (H3 : "2024-12-01" ≠ "") by discriminate.
  assert (H4 : @update_announcement Sample.externals Sample.db1 Sample.oid1
                 (Sample.update_end_date "2024-12-01") ∅
               = (Return "Announcement updated successfully",
                  (@update_announcement Sample.externals Sample.db1 Sample.oid1
                     (Sample.update_end_date "2024-12-01") ∅).2))
    by reflexivity.
  split; [exact H1|]. split; [reflexivity|].
  exact (@update_end_date_expires Sample.externals Sample.db1 _ Sample.oid1
           (Sample.update_end_date "2024-12-01") ∅ _
           "2024-12-01" "2025-01-05" H1 H2 eq_refl H3 eq_refl H4).
Defined.

(** ** ISO dates as strings *)

Lemma digit_compare (c c' : ascii) :
  Sample.is_digit c = true → Sample.is_digit c' = true →
  Ascii.compare c c' = Nat.compare (Sample.digit c) (Sample.digit c')
  ∧ Sample.digit c < 10 ∧ Sample.digit c' < 10.
Proof.
  unfold Sample.is_digit, Sample.digit, Ascii.compare, nat_of_ascii.
  intros [H1 H2]%andb_true_iff [H3 H4]%andb_true_iff.
  apply Nat.leb_le in H1, H2, H3, H4.
  rewrite N2Nat.inj_compare. split; [|lia].
  destruct (Nat.compare_spec (N.to_nat (N_of_ascii c)) (N.to_nat (N_of_ascii c')));
    symmetry; [apply Nat.compare_eq_iff|apply Nat.compare_lt_iff
              |apply Nat.compare_gt_iff]; lia.
Qed.

Lemma iso_date_shape (s : string) :
  Sample.iso_date s = true →
  ∃ y1 y2 y3 y4 m1 m2 n1 n2 : ascii,
    s = String y1 (String y2 (String y3 (String y4 (String "-"
          (String m1 (String m2 (String "-"
             (String n1 (String n2 "")))))))))
    ∧ Forall (fun c => Sample.is_digit c = true)
        [y1; y2; y3; y4; m1; m2; n1; n2].
Proof.
  intros H.
  do 10 (destruct s as [|? s]; [by vm_compute in H|]).
  destruct s as [|? s]; [|by vm_compute in H].
  unfold Sample.iso_date in H. cbn [String.list_ascii_of_string] in H.
  apply andb_true_iff in H as [H _].
  apply andb_true_iff in H as [H Hd2].
  apply andb_true_iff in H as [H Hd1].
  apply bool_decide_eq_true in Hd1, Hd2. subst.
  eexists _, _, _, _, _, _, _, _. split; [done|].
  apply Forall_forall. intros c Hc.
  rewrite forallb_forall in H. apply H. by apply list_elem_of_In.
Qed.

Lemma date_le_spec (y m d y' m' d' : nat) :
  Sample.date_le (y, m, d) (y', m', d') = true
  ↔ y < y' ∨ (y = y' ∧ (m < m' ∨ (m = m' ∧ d ≤ d'))).
Proof.
  unfold Sample.date_le.
  rewrite !orb_true_iff, !andb_true_iff, !orb_true_iff, !andb_true_iff.
  rewrite !Nat.ltb_lt, !Nat.eqb_eq, Nat.leb_le. done.
Qed.

(** On dates written [YYYY-MM-DD], the form of
    [date.today().isoformat()], the order on strings is calendar order. *)
Lemma py_le_ymd (a b : string) :
  Sample.iso_date a = true → Sample.iso_date b = true →
  py_le a b = Sample.date_le (Sample.ymd a) (Sample.ymd b).
Proof.
  intros (a1 & a2 & a3 & a4 & a5 & a6 & a7 & a8 & -> & Ha)%iso_date_shape
         (b1 & b2 & b3 & b4 & b5 & b6 & b7 & b8 & -> & Hb)%iso_date_shape.
  repeat match goal with
         | H : Forall _ (_ :: _) |- _ => apply Forall_cons in H as [? H]
         end.
  unfold py_le, String.leb, Sample.ymd.
  cbn [String.list_ascii_of_string String.compare].
  change (Ascii.compare "-" "-") with Eq. cbv iota.
  destruct (digit_compare a1 b1) as (-> & ? & ?); [done..|].
  destruct (digit_compare a2 b2) as (-> & ? & ?); [done..|].
  destruct (digit_compare a3 b3) as (-> & ? & ?); [done..|].
  destruct (digit_compare a4 b4) as (-> & ? & ?); [done..|].
  destruct (digit_compare a5 b5) as (-> & ? & ?); [done..|].
  destruct (digit_compare a6 b6) as (-> & ? & ?); [done..|].
  destruct (digit_compare a7 b7) as (-> & ? & ?); [done..|].
  destruct (digit_compare a8 b8) as (-> & ? & ?); [done..|].
  repeat match goal with
         | |- context [Sample.digit ?c] => generalize dependent (Sample.digit c); intros ?
         end.
  repeat match goal with
         | |- context [Nat.compare ?x ?y] =>
             destruct (Nat.compare_spec x y); [subst| |]
         end;
    (symmetry;
     first [ apply date_le_spec; lia
           | match goal with
             | |- ?t = false => destruct t eqn:X; [apply date_le_spec in X; lia|done]
             end ]).
Qed.

Lemma iso_date_nonempty (s : string) : Sample.iso_date s = true → s ≠ "".
Proof. by intros H ->. Qed.

Section Calendar.
Context {E : Externals}.

(** X4. For a record whose dates are written [YYYY-MM-DD], on a day written
    the same way, the filter decides by calendar order: the record is
    active exactly from its start date, if it has one, to its end date,
    both included. *)
Theorem is_active_calendar (d : Document E) (today e : string) :
  get (doc_fields d) "end_date" = Some e →
  Sample.iso_date e = true → Sample.iso_date today = true →
  (get (doc_fields d) "start_date" = None →
     is_active today d = Sample.date_le (Sample.ymd today) (Sample.ymd e))
  ∧ (∀ s, get (doc_fields d) "start_date" = Some s →
       Sample.iso_date s = true →
       is_active today d
       = Sample.date_le (Sample.ymd s) (Sample.ymd today)
         && Sample.date_le (Sample.ymd today) (Sample.ymd e)).
Proof.
  intros He Hie Hit. unfold is_active, truthy_and. rewrite He.
  rewrite (eqb_empty_false e (iso_date_nonempty e Hie)).
  rewrite py_lt_not_ge. unfold py_ge. rewrite (py_le_ymd today e Hit Hie).
  split.
  - intros ->. by destruct (Sample.date_le _ _).
  - intros s -> His.
    rewrite (eqb_empty_false s (iso_date_nonempty s His)).
    rewrite py_gt_not_le, (py_le_ymd s today His Hit).
    by destruct (Sample.date_le (Sample.ymd s) _), (Sample.date_le _ (Sample.ymd e)).
Qed.

(** X6. For a request whose two dates are written [YYYY-MM-DD] and pass the
    ISO parser, create fails with 400 exactly when the start date is after
    the end date in the calendar; equal dates are accepted. *)
Theorem create_announcement_calendar_order (db : Store E) (inserted_id : ObjectId)
    (req : AnnouncementCreate.t) (user : gmap string string) (s : string) :
  AnnouncementCreate.start_date req = Some s →
  fromisoformat s = true →
  fromisoformat (AnnouncementCreate.end_date req) = true →
  Sample.iso_date s = true →
  Sample.iso_date (AnnouncementCreate.end_date req) = true →
  fails_with (create_announcement db inserted_id req user).1 HTTP_400_BAD_REQUEST
  ↔ Sample.date_le (Sample.ymd s) (Sample.ymd (AnnouncementCreate.end_date req))
    = false.
Proof.
  intros Hs Hfs Hfe His Hie.
  rewrite <- (py_le_ymd s _ His Hie).
  assert (Hinv : create_invalid req
                 ↔ py_le s (AnnouncementCreate.end_date req) = false).
  { unfold create_invalid. rewrite Hs, Hfe. split.
    - intros [(s' & [= <-] & _ & Hf)|[?|(s' & [= <-] & _ & _ & Hgt)]];
        [congruence|done|].
      rewrite py_gt_not_le in Hgt. by destruct (py_le s _).
    - intros Hle. right. right. exists s.
      split; [done|]. split; [by apply iso_date_nonempty|].
      split; [by apply iso_date_nonempty|].
      by rewrite py_gt_not_le, Hle. }
  rewrite <- Hinv. split.
  - intros [msg Hmsg]. destruct (classic_create req) as [Hbad|Hok]; [done|].
    rewrite create_announcement_validated in Hmsg by done.
    destruct (insert_one _ _ _); simpl in Hmsg; discriminate Hmsg.
  - intros Hbad. by apply create_announcement_rejects.
Qed.

End Calendar.

Lemma is_active_calendar_witness :
  get exam_week "end_date" = Some "2025-01-10"
  ∧ Sample.iso_date "2025-01-10" = true
  ∧ Sample.iso_date "2025-01-05" = true
  ∧ is_active "2025-01-05" (@mkDocument Sample.externals Sample.oid1 exam_week)
    = Sample.date_le (Sample.ymd "2025-01-01") (Sample.ymd "2025-01-05")
      && Sample.date_le (Sample.ymd "2025-01-05") (Sample.ymd "2025-01-10").
Proof.
  split; [reflexivity|]. split; [reflexivity|]. split; [reflexivity|].
  exact (proj2 (@is_active_calendar Sample.externals
                  (@mkDocument Sample.externals Sample.oid1 exam_week)
                  "2025-01-05" "2025-01-10" eq_refl eq_refl eq_refl)
           "2025-01-01" eq_refl eq_refl).
Defined.

Lemma create_announcement_calendar_order_witness :
  Sample.iso_date "2025-02-01" = true
  ∧ Sample.iso_date "2025-01-10" = true
  ∧ Sample.date_le (Sample.ymd "2025-02-01") (Sample.ymd "2025-01-10") = false
  ∧ fails_with
      (@create_announcement Sample.externals Sample.db0 Sample.oid1
         (AnnouncementCreate.mk "Exam week" (Some "2025-02-01") "2025-01-10") ∅).1
      HTTP_400_BAD_REQUEST.
Proof.
  split; [reflexivity|]. split; [reflexivity|]. split; [reflexivity|].
  exact (proj2 (@create_announcement_calendar_order Sample.externals Sample.db0
                  Sample.oid1
                  (AnnouncementCreate.mk "Exam week" (Some "2025-02-01")
                     "2025-01-10")
                  ∅ "2025-02-01" eq_refl eq_refl eq_refl eq_refl eq_refl)
           eq_refl).
Defined.
